(** * ElasticsearchSearchEngine: the search-engine client of mediathekviewweb

    Shallow embedding of
    [server/src/search-engine/elasticsearch/search-engine.ts] and the
    properties of its four public operations ([initialize], [index],
    [search], [drop]) and two private helpers ([ensureIndex],
    [waitForConnection]).

    The class talks to the Elasticsearch client, the query converter, the
    timer and the console.  Every call that leaves the class is recorded,
    in program order, in the trace of a run; the state of the cluster
    behind the client is threaded through the calls, and so is the
    instance itself, which the methods only ever read. *)

From Stdlib Require Import ZArith List Bool Lia Ascii DecimalString.
From stdpp Require Import gmap strings list fin_maps.

Set Warnings "-register-all".

Local Open Scope string_scope.
Local Open Scope list_scope.
Local Open Scope Z_scope.

(** ** Data *)

(** Values of TypeScript type [any] / [{ [key: string]: any }]: index
    settings, mappings, error details.  An object keeps its own properties
    in insertion order. *)
Inductive Json : Type :=
| JNull
| JBool (b : bool)
| JNumber (n : Z)
| JString (s : string)
| JArray (elements : list Json)
| JObject (properties : list (string * Json)).

(** The own properties after [obj[key] = value], for a key that names an
    own property or none. *)
Fixpoint assign (key : string) (value : Json) (properties : list (string * Json))
  : list (string * Json) :=
  match properties with
  | [] => [(key, value)]
  | (k, v) :: rest =>
      if String.eqb k key then (k, value) :: rest else (k, v) :: assign key value rest
  end.

(** [obj[key] = value] on a plain object.  The key "__proto__" names the
    accessor inherited from [Object.prototype]: the assignment sets the
    prototype (or does nothing, for a primitive value) and creates no own
    property, and own properties are all a request body is made of. *)
Definition set_property (obj : Json) (key : string) (value : Json) : Json :=
  match obj with
  | JObject properties =>
      if String.eqb key "__proto__" then JObject properties
      else JObject (assign key value properties)
  | other => other
  end.


(** A thrown JavaScript error object: the name of its class and its
    message.  [new Error(message)] has name "Error". *)
Record ErrorObject : Type := { name : string; message : string }.

Definition new_Error (message : string) : ErrorObject :=
  {| name := "Error"; message := message |}.

(** How a call to a collaborator ends: a promise resolves or rejects, a
    synchronous call returns or throws. *)
Inductive Outcome (A : Type) : Type :=
| Resolved (value : A)
| Rejected (reason : ErrorObject).
Arguments Resolved {A} value.
Arguments Rejected {A} reason.

(** How a run of an [async] method ends.  [Pending] is a promise that has
    not settled within the iterations granted to the connection loop. *)
Inductive Completion (A : Type) : Type :=
| Returned (value : A)
| Thrown (error : ErrorObject)
| Pending.
Arguments Returned {A} value.
Arguments Thrown {A} error.
Arguments Pending {A}.

(** [SearchEngineItem<T>] and [SearchResult<T>] of [common/search-engine]. *)
Module SearchEngineItem.
Record t (T : Type) : Type := mk { id : string; document : T }.
Arguments mk {T} id document.
Arguments id {T} _.
Arguments document {T} _.
End SearchEngineItem.

Module SearchResult.
Record t (T : Type) : Type := mk { total : Z; milliseconds : Z; items : list T }.
Arguments mk {T} total milliseconds items.
Arguments total {T} _.
Arguments milliseconds {T} _.
Arguments items {T} _.
End SearchResult.

(** [ElasticsearchBulkResponse]: [items] is an array of objects, each
    keyed by the action name and holding that item's status and optional
    error (the remaining [any]-typed properties are kept in [others]). *)
Module BulkResponse.
Record item : Type :=
  mk_item { status : Z; error : option Json; others : list (string * Json) }.
Record t : Type :=
  mk { took : Z; errors : bool; items : list (list (string * item)) }.
End BulkResponse.

(** The part of [Elasticsearch.SearchResponse<T>] that [search] reads:
    [result.took], [result.hits.total], [result.hits.hits[i]._source]. *)
Module SearchResponse.
Record hit (T : Type) : Type := mk_hit { _id : string; _source : T }.
Arguments mk_hit {T} _id _source.
Arguments _id {T} _.
Arguments _source {T} _.
Module Hits.
Record t (T : Type) : Type := mk { total : Z; hits : list (hit T) }.
Arguments mk {T} total hits.
Arguments total {T} _.
Arguments hits {T} _.
End Hits.
Record t (T : Type) : Type := mk { took : Z; hits : Hits.t T }.
Arguments mk {T} took hits.
Arguments took {T} _.
Arguments hits {T} _.
End SearchResponse.

(** The unit-valued methods of [client.indices] with their parameters. *)
Inductive IndicesCall : Type :=
| Create (index : string)
| Close (index : string)
| PutSettings (index : string) (body : Json)
| PutMapping (index : string) (type : string) (body : Json)
| Open (index : string)
| Refresh (index : string)
| Delete (index : string).

(** The fields of an instance. *)
Record ElasticsearchSearchEngine : Type := {
  indexName : string;
  typeName : string;
  indexSettings : option Json;
  mapping : option Json
}.

(** [constructor(client, indexName, typeName, indexSettings?, indexMapping?)];
    an omitted optional argument is [None]. *)
Definition constructor (indexName typeName : string)
    (indexSettings indexMapping : option Json) : ElasticsearchSearchEngine :=
  {| indexName := indexName;
     typeName := typeName;
     indexSettings := indexSettings;
     mapping :=
       match indexMapping with
       | Some indexMapping => Some (set_property (JObject []) typeName indexMapping)
       | None => None
       end |}.

(** [x != undefined] *)
Definition defined {A : Type} (x : option A) : bool :=
  match x with Some _ => true | None => false end.

(** One element of the [body] array of a bulk request. *)
Inductive BulkLine (T : Type) : Type :=
| ActionIndex (_id : string)      (* { index: { _id: ... } } *)
| Source (document : T).
Arguments ActionIndex {T} _id.
Arguments Source {T} document.

(** [Elasticsearch.Client], as far as the class uses it: each method takes
    its parameters and the state of the backend and gives the next state
    and the way the returned promise settles.  [T] is the document type,
    [Query] the type of backend queries. *)
Module Client.
Record t (T Query Backend : Type) : Type := mk {
  ping : Z -> Backend -> Backend * Outcome unit;
  indices_exists : string -> Backend -> Backend * Outcome bool;
  indices : IndicesCall -> Backend -> Backend * Outcome unit;
  bulk : string -> string -> list (BulkLine T) -> Backend
         -> Backend * Outcome BulkResponse.t;
  search : Query -> Backend -> Backend * Outcome (SearchResponse.t T)
}.
Arguments mk {T Query Backend} _ _ _ _ _.
Arguments ping {T Query Backend} _ _ _.
Arguments indices_exists {T Query Backend} _ _ _.
Arguments indices {T Query Backend} _ _ _.
Arguments bulk {T Query Backend} _ _ _ _ _.
Arguments search {T Query Backend} _ _ _.
End Client.

(** ** The class and its collaborators *)

Section Engine.

(** [T] is the document type; [SearchQuery] the backend-neutral query of
    [common/search-engine]; [ElasticsearchQuery] what [Converter.convert]
    produces and [client.search] accepts; [Backend] the state of the
    Elasticsearch cluster (and of the connection to it) that decides how
    the client's calls end. *)
Context {T SearchQuery ElasticsearchQuery Backend : Type}.

Inductive LogArgument : Type :=
| LogString (s : string)
| LogQuery (q : ElasticsearchQuery).

(** Everything a run does outside the class, as it appears in a trace. *)
Inductive Effect : Type :=
| Ping (requestTimeout : Z)
| IndicesExists (index : string)
| Indices (call : IndicesCall)
| Bulk (index type : string) (body : list (BulkLine T))
| Search (query : ElasticsearchQuery)
| Convert (query : SearchQuery) (index type : string)
| Sleep (milliseconds : Z)
| ConsoleLog (argument : LogArgument).

Variable client : Client.t T ElasticsearchQuery Backend.

(** [Converter.convert] of [./converter], which is not part of the class:
    any function that returns a backend query or throws. *)
Variable convert : SearchQuery -> string -> string -> Outcome ElasticsearchQuery.

(** [JSON.stringify(response, null, 2)], a built-in of the platform. *)
Variable JSON_stringify : BulkResponse.t -> string.

(** What the backend does on its own while the caller sleeps. *)
Variable elapse : Z -> Backend -> Backend.

(** *** Runs *)

(** The instance ([this]) and the backend it is connected to. *)
Record World : Type := { this : ElasticsearchSearchEngine; backend : Backend }.

Record Run (A : Type) : Type :=
  run { trace : list Effect; final : World; completion : Completion A }.
Arguments run {A} _ _ _.
Arguments trace {A} _.
Arguments final {A} _.
Arguments completion {A} _.

Definition M (A : Type) : Type := World -> Run A.

Definition ret {A : Type} (a : A) : M A :=
  fun w => {| trace := []; final := w; completion := Returned a |}.

Definition throw {A : Type} (e : ErrorObject) : M A :=
  fun w => {| trace := []; final := w; completion := Thrown e |}.

Definition pending {A : Type} : M A :=
  fun w => {| trace := []; final := w; completion := Pending |}.

(** The run [r] after the effects [t]. *)
Definition prefixed {A : Type} (t : list Effect) (r : Run A) : Run A :=
  match r with
  | run t' w c => run (t ++ t') w c
  end.

Definition bind {A B : Type} (m : M A) (k : A -> M B) : M B :=
  fun w =>
    match m w with
    | run t w1 (Returned a) => prefixed t (k a w1)
    | run t w1 (Thrown e) => run t w1 (Thrown e)
    | run t w1 Pending => run t w1 Pending
    end.

(** [try { m } catch { handler }] *)
Definition try_catch {A : Type} (m : M A) (handler : M A) : M A :=
  fun w =>
    match m w with
    | run t w1 (Thrown _) => prefixed t (handler w1)
    | r => r
    end.

Notation "'let!' x ':=' m 'in' k" := (bind m (fun x => k))
  (at level 10, x name, m at level 100, k at level 200, only parsing).
Notation "m ;; k" := (bind m (fun _ => k))
  (at level 100, k at level 200, only parsing, right associativity).

(** [this.field] *)
Definition read {A : Type} (field : ElasticsearchSearchEngine -> A) : M A :=
  fun w => ret (field (this w)) w.

(** [await this.client.method(...)]: the call is recorded, the backend
    moves on, and a rejection is thrown at the [await]. *)
Definition await {A : Type} (e : Effect)
    (method : Backend -> Backend * Outcome A) : M A :=
  fun w =>
    let (b, settled) := method (backend w) in
    {| trace := [e];
       final := {| this := this w; backend := b |};
       completion :=
         match settled with
         | Resolved a => Returned a
         | Rejected reason => Thrown reason
         end |}.

Definition client_ping (requestTimeout : Z) : M unit :=
  await (Ping requestTimeout) (Client.ping client requestTimeout).

Definition client_indices_exists (index : string) : M bool :=
  await (IndicesExists index) (Client.indices_exists client index).

Definition client_indices (call : IndicesCall) : M unit :=
  await (Indices call) (Client.indices client call).

Definition client_bulk (index type : string) (body : list (BulkLine T))
  : M BulkResponse.t :=
  await (Bulk index type body) (Client.bulk client index type body).

Definition client_search (query : ElasticsearchQuery) : M (SearchResponse.t T) :=
  await (Search query) (Client.search client query).

Definition console_log (argument : LogArgument) : M unit :=
  fun w => {| trace := [ConsoleLog argument]; final := w; completion := Returned tt |}.

(** Modelled from the spec: [sleep] of [common/utils] is not among the
    sources.  The specification has the connection gate wait a fixed
    backoff interval between probes, so [sleep(ms)] resolves, never
    rejects, and in the meantime only the backend moves. *)
Definition sleep (milliseconds : Z) : M unit :=
  fun w =>
    {| trace := [Sleep milliseconds];
       final := {| this := this w; backend := elapse milliseconds (backend w) |};
       completion := Returned tt |}.

(** [Converter.convert(query, index, type)], a synchronous call. *)
Definition Converter_convert (query : SearchQuery) (index type : string)
  : M ElasticsearchQuery :=
  fun w =>
    {| trace := [Convert query index type];
       final := w;
       completion :=
         match convert query index type with
         | Resolved q => Returned q
         | Rejected reason => Thrown reason
         end |}.

(** *** Methods *)

(** [waitForConnection]: the [do ... while (!success)] loop; [fuel] bounds
    the number of iterations, and a loop that has used them all is still
    [Pending]. *)
Fixpoint waitForConnection (fuel : nat) : M unit :=
  match fuel with
  | O => pending
  | S fuel =>
      let! success :=
        try_catch
          (client_ping 250 ;;
           console_log (LogString "connected to elasticsearch") ;;
           ret true)
          (console_log (LogString "couldn't connect to elasticsearch, trying again...") ;;
           ret false) in
      sleep 2000 ;;
      if success then ret tt else waitForConnection fuel
  end.

Definition ensureIndex : M unit :=
  let! index := read indexName in
  let! indexExists := client_indices_exists index in
  if negb indexExists then
    let! index := read indexName in
    client_indices (Create index)
  else ret tt.

Definition initialize (fuel : nat) : M unit :=
  waitForConnection fuel ;;
  ensureIndex ;;
  let! settings := read indexSettings in
  let! mapping_ := read mapping in
  if defined settings || defined mapping_ then
    (let! index := read indexName in client_indices (Close index)) ;;
    (let! settings := read indexSettings in
     match settings with
     | Some body =>
         let! index := read indexName in
         client_indices (PutSettings index body)
     | None => ret tt
     end) ;;
    (let! mapping_ := read mapping in
     match mapping_ with
     | Some body =>
         let! index := read indexName in
         let! type := read typeName in
         client_indices (PutMapping index type body)
     | None => ret tt
     end) ;;
    (let! index := read indexName in client_indices (Open index)) ;;
    (let! index := read indexName in client_indices (Refresh index))
  else ret tt.

Definition index (items : list (SearchEngineItem.t T)) : M unit :=
  let! index := read indexName in
  let! type := read typeName in
  let body :=
    fold_left
      (fun body item =>
         body ++ [ActionIndex (SearchEngineItem.id item);
                  Source (SearchEngineItem.document item)])
      items [] in
  let! response := client_bulk index type body in
  if BulkResponse.errors response then
    throw (new_Error (JSON_stringify response))
  else ret tt.

Definition search (query : SearchQuery) : M (SearchResult.t T) :=
  let! index := read indexName in
  let! type := read typeName in
  let! elasticsearchQuery := Converter_convert query index type in
  console_log (LogQuery elasticsearchQuery) ;;
  let! result := client_search elasticsearchQuery in
  let items :=
    map SearchResponse._source
        (SearchResponse.Hits.hits (SearchResponse.hits result)) in
  ret (SearchResult.mk
         (SearchResponse.Hits.total (SearchResponse.hits result))
         (SearchResponse.took result)
         items).

Definition drop (fuel : nat) : M unit :=
  (let! index := read indexName in client_indices (Delete index)) ;;
  initialize fuel.

End Engine.

Arguments World : clear implicits.
Arguments run {T SearchQuery ElasticsearchQuery Backend A} _ _ _.
Arguments trace {T SearchQuery ElasticsearchQuery Backend A} _.
Arguments final {T SearchQuery ElasticsearchQuery Backend A} _.
Arguments completion {T SearchQuery ElasticsearchQuery Backend A} _.

(** ** A reference cluster

    Elasticsearch itself is outside the repository: the properties below
    hold of every [Client.t].  This is one of them, a small deterministic
    machine behind the calls the class makes (ping, index existence,
    create/close/open/refresh/delete index, put settings, put mapping,
    bulk write, query), used to run the class and to say what state a
    backend is in after [drop].  It boots for a while, during which no call
    is served, can lose one later call, refuses documents that fail
    validation, and refuses settings on an open index. *)
Module Cluster.
Section Machine.
Context {T : Type}.

Record Index : Type := {
  opened : bool;
  settings : option Json;
  mappings : list (string * Json);
  documents : list (string * T)
}.

Record t : Type := {
  indices : gmap string Index;
  boot : Z;                 (* milliseconds until the cluster answers *)
  outage : option nat       (* calls still served before one is lost *)
}.

(** A backend query: a page of the documents of an index. *)
Record Query : Type := {
  q_index : string;
  q_from : nat;
  q_size : nat
}.

Definition NoConnections : ErrorObject :=
  {| name := "NoConnections"; message := "No Living connections" |}.
Definition NotFound : ErrorObject :=
  {| name := "NotFound"; message := "index_not_found_exception" |}.
Definition BadRequest (why : string) : ErrorObject :=
  {| name := "BadRequest"; message := why |}.

Definition fresh : Index :=
  {| opened := true; settings := None; mappings := []; documents := [] |}.

(** Every call first has to reach the cluster. *)
Definition reach {A : Type} (serve : t -> t * Outcome A) (c : t) : t * Outcome A :=
  if 0 <? boot c then (c, Rejected NoConnections)
  else
    match outage c with
    | Some O =>
        ({| indices := indices c; boot := boot c; outage := None |},
         Rejected NoConnections)
    | Some (S n) =>
        serve {| indices := indices c; boot := boot c; outage := Some n |}
    | None => serve c
    end.

Definition with_indices (c : t) (m : gmap string Index) : t :=
  {| indices := m; boot := boot c; outage := outage c |}.

(** A call on an existing index, which it may replace. *)
Definition on_index (i : string) (f : Index -> Index + ErrorObject) (c : t)
  : t * Outcome unit :=
  match indices c !! i with
  | None => (c, Rejected NotFound)
  | Some ix =>
      match f ix with
      | inl ix' => (with_indices c (<[i := ix']> (indices c)), Resolved tt)
      | inr e => (c, Rejected e)
      end
  end.

Definition put_mapping (type : string) (body : Json) (ix : Index) : Index :=
  let schema :=
    match body with
    | JObject [(k, v)] => if String.eqb k type then v else body
    | _ => body
    end in
  {| opened := opened ix; settings := settings ix;
     mappings := assign type schema (mappings ix);
     documents := documents ix |}.

Definition serve_indices (call : IndicesCall) (c : t) : t * Outcome unit :=
  match call with
  | Create i =>
      match indices c !! i with
      | Some _ => (c, Rejected (BadRequest "resource_already_exists_exception"))
      | None => (with_indices c (<[i := fresh]> (indices c)), Resolved tt)
      end
  | Close i =>
      on_index i (fun ix => inl {| opened := false; settings := settings ix;
                                   mappings := mappings ix;
                                   documents := documents ix |}) c
  | Open i =>
      on_index i (fun ix => inl {| opened := true; settings := settings ix;
                                   mappings := mappings ix;
                                   documents := documents ix |}) c
  | Refresh i => on_index i (fun ix => inl ix) c
  | PutSettings i body =>
      on_index i (fun ix =>
        if opened ix then inr (BadRequest "illegal_argument_exception")
        else inl {| opened := false; settings := Some body;
                    mappings := mappings ix; documents := documents ix |}) c
  | PutMapping i type body => on_index i (fun ix => inl (put_mapping type body ix)) c
  | Delete i =>
      match indices c !! i with
      | None => (c, Rejected NotFound)
      | Some _ => (with_indices c (delete i (indices c)), Resolved tt)
      end
  end.

(** What a resolved configuration call makes of the index it addresses. *)
Definition configured (call : IndicesCall) (ix : Index) : Index :=
  match call with
  | Close _ =>
      {| opened := false; settings := settings ix; mappings := mappings ix;
         documents := documents ix |}
  | Open _ =>
      {| opened := true; settings := settings ix; mappings := mappings ix;
         documents := documents ix |}
  | PutSettings _ body =>
      {| opened := false; settings := Some body; mappings := mappings ix;
         documents := documents ix |}
  | PutMapping _ type body => put_mapping type body ix
  | _ => ix
  end.

(** The index a call addresses. *)
Definition target (call : IndicesCall) : string :=
  match call with
  | Create i | Close i | PutSettings i _ | PutMapping i _ _
  | Open i | Refresh i | Delete i => i
  end.

Definition stored (id : string) (docs : list (string * T)) : bool :=
  existsb (fun d => String.eqb (fst d) id) docs.

Fixpoint upsert (id : string) (doc : T) (docs : list (string * T))
  : list (string * T) :=
  match docs with
  | [] => [(id, doc)]
  | (k, v) :: rest =>
      if String.eqb k id then (k, doc) :: rest else (k, v) :: upsert id doc rest
  end.

Variable validates : T -> bool.

(** The bulk body is read two lines at a time: an action and its source. *)
Fixpoint write (body : list (BulkLine T)) (docs : list (string * T))
  : option (list (string * T) * list (list (string * BulkResponse.item))) :=
  match body with
  | [] => Some (docs, [])
  | ActionIndex id :: Source doc :: rest =>
      let outcome :=
        if validates doc then
          BulkResponse.mk_item (if stored id docs then 200 else 201) None
            [("_id", JString id)]
        else
          BulkResponse.mk_item 400 (Some (JString "mapper_parsing_exception"))
            [("_id", JString id)] in
      let docs' := if validates doc then upsert id doc docs else docs in
      match write rest docs' with
      | Some (docs'', outcomes) => Some (docs'', [("index", outcome)] :: outcomes)
      | None => None
      end
  | _ => None
  end.

Definition failed (outcome : list (string * BulkResponse.item)) : bool :=
  existsb (fun entry => 400 <=? BulkResponse.status (snd entry)) outcome.

Definition serve_bulk (i type : string) (body : list (BulkLine T)) (c : t)
  : t * Outcome BulkResponse.t :=
  match indices c !! i with
  | None => (c, Rejected NotFound)
  | Some ix =>
      if negb (opened ix) then (c, Rejected (BadRequest "index_closed_exception"))
      else
        match write body (documents ix) with
        | None => (c, Rejected (BadRequest "action_request_validation_exception"))
        | Some (docs, outcomes) =>
            (with_indices c
               (<[i := {| opened := true; settings := settings ix;
                          mappings := mappings ix; documents := docs |}]>
                  (indices c)),
             Resolved (BulkResponse.mk 1 (existsb failed outcomes) outcomes))
        end
  end.

Definition serve_search (q : Query) (c : t) : t * Outcome (SearchResponse.t T) :=
  match indices c !! q_index q with
  | None => (c, Rejected NotFound)
  | Some ix =>
      if negb (opened ix) then (c, Rejected (BadRequest "index_closed_exception"))
      else
        let found := documents ix in
        let page := firstn (q_size q) (skipn (q_from q) found) in
        (c, Resolved
              (SearchResponse.mk 1
                 (SearchResponse.Hits.mk (Z.of_nat (length found))
                    (map (fun d => SearchResponse.mk_hit (fst d) (snd d)) page))))
  end.

Definition client : Client.t T Query t :=
  Client.mk
    (fun _ => reach (fun c => (c, Resolved tt)))
    (fun i => reach (fun c => (c, Resolved (bool_decide (is_Some (indices c !! i))))))
    (fun call => reach (serve_indices call))
    (fun i type body => reach (serve_bulk i type body))
    (fun q => reach (serve_search q)).

(** While the caller sleeps the cluster goes on booting. *)
Definition elapse (milliseconds : Z) (c : t) : t :=
  {| indices := indices c;
     boot := Z.max 0 (boot c - milliseconds);
     outage := outage c |}.

(** A cluster without indices that answers after [boot] milliseconds. *)
Definition start (boot : Z) : t :=
  {| indices := ∅; boot := boot; outage := None |}.

End Machine.
Arguments Index : clear implicits.
Arguments t : clear implicits.
End Cluster.

(** ** The text of a bulk response

    [JSON.stringify(value, null, 2)] on the values a bulk response is made
    of: integers, booleans, strings, arrays and objects, indented by two
    spaces per level; a property whose value is [undefined] is left out. *)
Module JSON.

Definition newline : string := String (Ascii.ascii_of_nat 10) "".

Definition number (n : Z) : string :=
  NilZero.string_of_int (Z.to_int n).

Definition hex_digit (n : nat) : Ascii.ascii :=
  Ascii.ascii_of_nat (if Nat.ltb n 10 then 48 + n else 87 + n)%nat.

Definition escape (c : Ascii.ascii) : string :=
  let n := Ascii.nat_of_ascii c in
  if Nat.eqb n 34 then String (Ascii.ascii_of_nat 92) (String c EmptyString)
  else if Nat.eqb n 92 then "\\"
  else if Nat.eqb n 8 then "\b"
  else if Nat.eqb n 9 then "\t"
  else if Nat.eqb n 10 then "\n"
  else if Nat.eqb n 12 then "\f"
  else if Nat.eqb n 13 then "\r"
  else if Nat.ltb n 32 then
    "\u00" +:+ String (hex_digit (n / 16)) (String (hex_digit (n mod 16)) "")
  else String c "".

Fixpoint quote_body (s : string) : string :=
  match s with
  | EmptyString => ""
  | String c rest => escape c +:+ quote_body rest
  end.

Definition quote (s : string) : string :=
  String (Ascii.ascii_of_nat 34) (quote_body s +:+ String (Ascii.ascii_of_nat 34) "").

Fixpoint spaces (n : nat) : string :=
  match n with O => "" | S n => " " +:+ spaces n end.

Fixpoint join (separator : string) (parts : list string) : string :=
  match parts with
  | [] => ""
  | [part] => part
  | part :: rest => part +:+ separator +:+ join separator rest
  end.

(** An array or object whose members are already printed at [depth + 1]. *)
Definition block (opening closing : string) (depth : nat) (members : list string)
  : string :=
  match members with
  | [] => opening +:+ closing
  | _ =>
      opening +:+ newline +:+ spaces (2 * (depth + 1))
      +:+ join ("," +:+ newline +:+ spaces (2 * (depth + 1))) members
      +:+ newline +:+ spaces (2 * depth) +:+ closing
  end.

Definition member (key value : string) : string := quote key +:+ ": " +:+ value.

Fixpoint value (depth : nat) (v : Json) : string :=
  match v with
  | JNull => "null"
  | JBool b => if b then "true" else "false"
  | JNumber n => number n
  | JString s => quote s
  | JArray elements => block "[" "]" depth (map (value (S depth)) elements)
  | JObject properties =>
      block "{" "}" depth
        (map (fun p => member (fst p) (value (S depth) (snd p))) properties)
  end.

(** The properties of one item outcome: [others], then [status], then
    [error] when there is one. *)
Definition item (depth : nat) (i : BulkResponse.item) : string :=
  block "{" "}" depth
    (map (fun p => member (fst p) (value (S depth) (snd p))) (BulkResponse.others i)
     ++ [member "status" (number (BulkResponse.status i))]
     ++ match BulkResponse.error i with
        | Some e => [member "error" (value (S depth) e)]
        | None => []
        end).

Definition stringify (response : BulkResponse.t) : string :=
  block "{" "}" 0
    [member "took" (number (BulkResponse.took response));
     member "errors" (if BulkResponse.errors response then "true" else "false");
     member "items"
       (block "[" "]" 1
          (map (fun entry =>
                  block "{" "}" 2
                    (map (fun p => member (fst p) (item 3 (snd p))) entry))
               (BulkResponse.items response)))].

End JSON.

(** ** A small installation

    Documents are running times in minutes (a negative one fails
    validation); a search query asks for a page of ten films. *)
Module Demo.

Definition Document : Type := Z.
Definition SearchQuery : Type := nat.
Definition Backend : Type := Cluster.t Document.
Definition ElasticsearchQuery : Type := Cluster.Query.

Definition client : Client.t Document ElasticsearchQuery Backend :=
  Cluster.client (fun minutes => 0 <=? minutes).

Definition convert (query : SearchQuery) (index type : string)
  : Outcome ElasticsearchQuery :=
  Resolved {| Cluster.q_index := index;
              Cluster.q_from := query * 10; Cluster.q_size := 10 |}.

Definition settings : Json := JObject [("number_of_replicas", JNumber 0)].
Definition schema : Json :=
  JObject [("properties", JObject [("minutes", JObject [("type", JString "long")])])].

Definition engine : ElasticsearchSearchEngine :=
  constructor "films" "film" (Some settings) (Some schema).

(** The instance in front of a cluster that needs [boot] more
    milliseconds. *)
Definition world (boot : Z) : World Backend :=
  {| this := engine; backend := Cluster.start boot |}.

Definition initialize : nat -> M (Backend := Backend) unit :=
  initialize (SearchQuery := SearchQuery) client Cluster.elapse.
Definition index : list (SearchEngineItem.t Document) -> M (Backend := Backend) unit :=
  index (SearchQuery := SearchQuery) client JSON.stringify.
Definition search : SearchQuery -> M (SearchResult.t Document) :=
  search client convert.
Definition drop : nat -> M (Backend := Backend) unit :=
  drop (SearchQuery := SearchQuery) client Cluster.elapse.
Definition waitForConnection : nat -> M (Backend := Backend) unit :=
  waitForConnection (SearchQuery := SearchQuery) client Cluster.elapse.
Definition ensureIndex : M (Backend := Backend) unit :=
  ensureIndex (SearchQuery := SearchQuery) client.

(** The world once [initialize] has returned. *)
Definition ready : World Backend := final (initialize 1 (world 0)).

Definition batch : list (SearchEngineItem.t Document) :=
  [SearchEngineItem.mk "a" 90; SearchEngineItem.mk "b" (-1); SearchEngineItem.mk "c" 45].

(** A running cluster whose only index is a fresh "films". *)
Definition created : Backend :=
  {| Cluster.indices := {[ "films" := Cluster.fresh ]};
     Cluster.boot := 0;
     Cluster.outage := None |}.

(** What the cluster answers to [batch]: the second item is refused. *)
Definition answer : BulkResponse.t :=
  BulkResponse.mk 1 true
    [[("index", BulkResponse.mk_item 201 None [("_id", JString "a")])];
     [("index", BulkResponse.mk_item 400 (Some (JString "mapper_parsing_exception"))
                  [("_id", JString "b")])];
     [("index", BulkResponse.mk_item 201 None [("_id", JString "c")])]].

(** The effects of [initialize] on a running cluster without indices, up
    to and including [ensureIndex]. *)
Definition prepared : list (@Effect Document SearchQuery ElasticsearchQuery) :=
  [Ping 250; ConsoleLog (LogString "connected to elasticsearch"); Sleep 2000;
   IndicesExists "films"; Indices (Create "films")].



(** A converter that only knows the first hundred pages. *)
Definition narrow_convert (query : SearchQuery) (index type : string)
  : Outcome ElasticsearchQuery :=
  if Nat.ltb query 100 then convert query index type
  else Rejected {| name := "RangeError"; message := "page out of range" |}.

(** The instance in front of a running cluster that serves one call and
    loses the next. *)
Definition flaky : World Backend :=
  {| this := engine;
     backend := {| Cluster.indices := ∅; Cluster.boot := 0;
                   Cluster.outage := Some 1%nat |} |}.

End Demo.

(** ** Vocabulary of the properties *)

Section Vocabulary.
Context {T SearchQuery ElasticsearchQuery Backend : Type}.
Variable client : Client.t T ElasticsearchQuery Backend.
Variable convert : SearchQuery -> string -> string -> Outcome ElasticsearchQuery.
Variable JSON_stringify : BulkResponse.t -> string.
Variable elapse : Z -> Backend -> Backend.

(** The close/configure/open protocol as the specification words it: close,
    settings if supplied, mapping if supplied, open, refresh; nothing when
    neither was supplied. *)
Definition configurationCalls (e : ElasticsearchSearchEngine) : list IndicesCall :=
  if defined (indexSettings e) || defined (mapping e) then
    [Close (indexName e)]
    ++ match indexSettings e with
       | Some body => [PutSettings (indexName e) body]
       | None => []
       end
    ++ match mapping e with
       | Some body => [PutMapping (indexName e) (typeName e) body]
       | None => []
       end
    ++ [Open (indexName e); Refresh (indexName e)]
  else [].

(** [served calls b b']: issued one after the other from backend state
    [b], every call of [calls] resolves, and the backend ends in [b']. *)
Inductive served : list IndicesCall -> Backend -> Backend -> Prop :=
| served_nil (b : Backend) : served [] b b
| served_cons (call : IndicesCall) (calls : list IndicesCall) (b b1 b2 : Backend) :
    Client.indices client call b = (b1, Resolved tt) ->
    served calls b1 b2 ->
    served (call :: calls) b b2.

(** Issue [calls] in order, stopping at the first rejection. *)
Fixpoint issue (calls : list IndicesCall)
  : M (SearchQuery := SearchQuery) (Backend := Backend) unit :=
  match calls with
  | [] => ret tt
  | call :: calls => bind (client_indices client call) (fun _ => issue calls)
  end.

(** [probes n b b']: polled every 2000 ms from backend state [b], the
    health probe is rejected [n] times and then resolves, leaving [b']. *)
Inductive probes : nat -> Backend -> Backend -> Prop :=
| probes_resolved (b b' : Backend) :
    Client.ping client 250 b = (b', Resolved tt) ->
    probes 0 b b'
| probes_rejected (n : nat) (b b1 b' : Backend) (e : ErrorObject) :
    Client.ping client 250 b = (b1, Rejected e) ->
    probes n (elapse 2000 b1) b' ->
    probes (S n) b b'.

(** What one round of the connection loop leaves in the trace. *)
Definition failedAttempt : list (@Effect T SearchQuery ElasticsearchQuery) :=
  [Ping 250;
   ConsoleLog (LogString "couldn't connect to elasticsearch, trying again...");
   Sleep 2000].

Definition successfulAttempt : list (@Effect T SearchQuery ElasticsearchQuery) :=
  [Ping 250; ConsoleLog (LogString "connected to elasticsearch"); Sleep 2000].

Definition isPing (e : @Effect T SearchQuery ElasticsearchQuery) : bool :=
  match e with Ping _ => true | _ => false end.

Definition isSleep (e : @Effect T SearchQuery ElasticsearchQuery) : bool :=
  match e with Sleep _ => true | _ => false end.

(** The calls that go to the backend. *)
Definition isBackendCall (e : @Effect T SearchQuery ElasticsearchQuery) : bool :=
  match e with
  | Ping _ | IndicesExists _ | Indices _ | Bulk _ _ _ | Search _ => true
  | Convert _ _ _ | Sleep _ | ConsoleLog _ => false
  end.

Definition isConvert (e : @Effect T SearchQuery ElasticsearchQuery) : bool :=
  match e with Convert _ _ _ => true | _ => false end.

Definition count (p : @Effect T SearchQuery ElasticsearchQuery -> bool)
    (t : list (@Effect T SearchQuery ElasticsearchQuery)) : nat :=
  length (List.filter p t).

(** The bulk body as the specification words it: per item, in input
    order, the upsert directive for its id and then its document. *)
Definition bulkBody (items : list (SearchEngineItem.t T)) : list (BulkLine T) :=
  flat_map
    (fun item =>
       [ActionIndex (SearchEngineItem.id item);
        Source (SearchEngineItem.document item)])
    items.

(** The public operations, and a caller that issues a sequence of them,
    going on to the next whether the last returned, threw or is still
    waiting for a connection. *)
Inductive Operation : Type :=
| Initialize
| Index (items : list (SearchEngineItem.t T))
| SearchFor (query : SearchQuery)
| Drop.

Definition perform (fuel : nat) (op : Operation) : M unit :=
  match op with
  | Initialize => initialize client elapse fuel
  | Index items => index client JSON_stringify items
  | SearchFor query => bind (search client convert query) (fun _ => ret tt)
  | Drop => drop client elapse fuel
  end.

Fixpoint session (fuel : nat) (ops : list Operation) (w : World Backend)
  : World Backend :=
  match ops with
  | [] => w
  | op :: ops => session fuel ops (final (perform fuel op w))
  end.

(** The error class the specification names for a failed bulk write. *)
Definition isBulkIndexError (e : ErrorObject) : Prop := name e = "BulkIndexError".

(** A computation that leaves the fields of the instance as they are. *)
Definition keepsThis {A : Type}
    (m : M (T := T) (SearchQuery := SearchQuery)
           (ElasticsearchQuery := ElasticsearchQuery) (Backend := Backend) A)
  : Prop :=
  forall w, this (final (m w)) = this w.

(** [rejections n b b']: polled every 2000 ms from backend state [b], the
    health probe is rejected [n] times in a row, which leaves [b']. *)
Inductive rejections : nat -> Backend -> Backend -> Prop :=
| rejections_none (b : Backend) : rejections 0 b b
| rejections_more (n : nat) (b b1 b' : Backend) (e : ErrorObject) :
    Client.ping client 250 b = (b1, Rejected e) ->
    rejections n (elapse 2000 b1) b' ->
    rejections (S n) b b'.

(** The index a call of [client.indices] names in its parameters. *)
Definition calledIndex (call : IndicesCall) : string :=
  match call with
  | Create i | Close i | PutSettings i _ | PutMapping i _ _
  | Open i | Refresh i | Delete i => i
  end.

Definition isDelete (e : @Effect T SearchQuery ElasticsearchQuery) : bool :=
  match e with Indices (Delete _) => true | _ => false end.

(** The effects of the connection loop: a probe with a timeout of 250 ms,
    a log line, a sleep of 2000 ms. *)
Definition isGateEffect (e : @Effect T SearchQuery ElasticsearchQuery) : bool :=
  match e with
  | Ping requestTimeout => requestTimeout =? 250
  | Sleep milliseconds => milliseconds =? 2000
  | ConsoleLog _ => true
  | _ => false
  end.

(** An effect that is no call on documents and, if it is a call on an
    index, names the index [name]. *)
Definition addresses (name : string) (e : @Effect T SearchQuery ElasticsearchQuery)
  : bool :=
  match e with
  | Ping _ | Sleep _ | ConsoleLog _ => true
  | IndicesExists i => String.eqb i name
  | Indices call => String.eqb (calledIndex call) name
  | Bulk _ _ _ | Search _ | Convert _ _ _ => false
  end.

End Vocabulary.


(** ** cancelableTimeout

    [cancelableTimeout] of the timer utilities: a promise that resolves
    [false] when a timer fires, unless a cancel promise resolves first.
    Time itself is left out: a run is the order in which the timer and the
    cancel promise come due. *)
Module Timing.

(** The second argument, [millisecondsOrResolveOnCancel: number | boolean]. *)
Inductive Argument : Type :=
| ANumber (n : Z)
| ABoolean (b : bool).

(** The parameters after their defaults ([= 0], [= false]); an argument
    left out is [None]. *)
Definition withDefault {A : Type} (default : A) (argument : option A) : A :=
  match argument with Some a => a | None => default end.

(** [const milliseconds = (typeof x == 'number') ? x : 0] *)
Definition milliseconds (millisecondsOrResolveOnCancel : option Argument) : Z :=
  match withDefault (ANumber 0) millisecondsOrResolveOnCancel with
  | ANumber n => n
  | ABoolean _ => 0
  end.

(** [if (typeof x == 'boolean') { resolveOnCancel = x; }] *)
Definition resolveOnCancel (millisecondsOrResolveOnCancel : option Argument)
    (resolveOnCancel : option bool) : bool :=
  match withDefault (ANumber 0) millisecondsOrResolveOnCancel with
  | ABoolean b => b
  | ANumber _ => withDefault false resolveOnCancel
  end.

(** One call in flight: the local flag [resolved], the timer that
    [setTimeout] armed (with its delay) until it fires or is cleared,
    whether the executor is still suspended at [await cancelPromise], the
    calls of [resolve] so far, oldest first, and whether a rejection has
    escaped the executor: nothing handles the promise of the [async]
    executor, so a rejection thrown at its [await] is an unhandled
    rejection, which the platform reports or ends the process on. *)
Record State : Type := {
  resolved : bool;
  timer : option Z;
  awaiting : bool;
  resolutions : list bool;
  unhandled : bool
}.

(** What can come due. *)
Inductive Event : Type :=
| TimerFires
| CancelResolves
| CancelRejects.

(** The executor up to its [await]. *)
Definition start (millisecondsOrResolveOnCancel : option Argument) : State :=
  {| resolved := false;
     timer := Some (milliseconds millisecondsOrResolveOnCancel);
     awaiting := true;
     resolutions := [];
     unhandled := false |}.

(** The callback given to [setTimeout]. *)
Definition onTimer (s : State) : State :=
  if negb (resolved s) then
    {| resolved := true; timer := None; awaiting := awaiting s;
       resolutions := resolutions s ++ [false]; unhandled := unhandled s |}
  else
    {| resolved := resolved s; timer := None; awaiting := awaiting s;
       resolutions := resolutions s; unhandled := unhandled s |}.

(** The executor after its [await]. *)
Definition onCancel (resolveOnCancel : bool) (s : State) : State :=
  if negb (resolved s) then
    {| resolved := true;
       timer := None;                                     (* clearTimeout(timer) *)
       awaiting := false;
       resolutions := resolutions s ++ (if resolveOnCancel then [true] else []);
       unhandled := unhandled s |}
  else
    {| resolved := resolved s; timer := timer s; awaiting := false;
       resolutions := resolutions s; unhandled := unhandled s |}.

(** An event that finds nothing waiting for it (a timer already fired or
    cleared, a cancel promise already settled) does nothing.  A rejection
    of the cancel promise is thrown at the [await]: the rest of the
    executor is skipped and the rejection escapes.  What comes due after
    that is what the platform still lets come due; on a platform that ends
    the process there, nothing does. *)
Definition step (resolveOnCancel : bool) (s : State) (e : Event) : State :=
  match e with
  | TimerFires =>
      match timer s with
      | Some _ => onTimer s
      | None => s
      end
  | CancelResolves => if awaiting s then onCancel resolveOnCancel s else s
  | CancelRejects =>
      if awaiting s then
        {| resolved := resolved s; timer := timer s; awaiting := false;
           resolutions := resolutions s; unhandled := true |}
      else s
  end.

(** The call [cancelableTimeout(cancelPromise, x, resolveOnCancel)] after
    the events [events]. *)
Definition cancelableTimeout (millisecondsOrResolveOnCancel : option Argument)
    (resolveOnCancel' : option bool) (events : list Event) : State :=
  fold_left
    (step (resolveOnCancel millisecondsOrResolveOnCancel resolveOnCancel'))
    events
    (start millisecondsOrResolveOnCancel).

(** The value of the returned promise: that of the first call of
    [resolve], if there has been one. *)
Definition settled (s : State) : option bool := head (resolutions s).

Definition isTimerFires (e : Event) : bool :=
  match e with TimerFires => true | _ => false end.

End Timing.
(** ** Properties *)

Section Properties.
Context {T SearchQuery ElasticsearchQuery Backend : Type}.
Variable client : Client.t T ElasticsearchQuery Backend.
Variable convert : SearchQuery -> string -> string -> Outcome ElasticsearchQuery.
Variable JSON_stringify : BulkResponse.t -> string.
Variable elapse : Z -> Backend -> Backend.

Local Abbreviation waitForConnection :=
  (waitForConnection (SearchQuery := SearchQuery) client elapse).
Local Abbreviation ensureIndex := (ensureIndex (SearchQuery := SearchQuery) client).
Local Abbreviation initialize := (initialize (SearchQuery := SearchQuery) client elapse).
Local Abbreviation index := (index (SearchQuery := SearchQuery) client JSON_stringify).
Local Abbreviation search := (search client convert).
Local Abbreviation drop := (drop (SearchQuery := SearchQuery) client elapse).
Local Abbreviation issue := (issue (SearchQuery := SearchQuery) client).
Local Abbreviation served := (served client).
Local Abbreviation probes := (probes client elapse).
Local Abbreviation session := (session client convert JSON_stringify elapse).
Local Abbreviation perform := (perform client convert JSON_stringify elapse).
Local Abbreviation Trace := (list (@Effect T SearchQuery ElasticsearchQuery)).
Local Abbreviation failedAttempt := (@failedAttempt T SearchQuery ElasticsearchQuery).
Local Abbreviation successfulAttempt := (@successfulAttempt T SearchQuery ElasticsearchQuery).
Local Abbreviation keepsThis := (@keepsThis T SearchQuery ElasticsearchQuery Backend _).
Local Abbreviation Run := (@Run T SearchQuery ElasticsearchQuery Backend).
Local Abbreviation M := (@M T SearchQuery ElasticsearchQuery Backend).

(** *** Runs *)

Lemma prefixed_run {A : Type} (t : Trace) (r : Run A) :
  prefixed t r
  = {| trace := t ++ trace r; final := final r; completion := completion r |}.
Proof. destruct r; reflexivity. Qed.

(** A sequence, by the way its first part ends. *)
Lemma bind_run {A B : Type} (m : M A) (k : A -> M B) (w : World Backend) :
  bind m k w
  = match completion (m w) with
    | Returned a => prefixed (trace (m w)) (k a (final (m w)))
    | Thrown e => {| trace := trace (m w); final := final (m w); completion := Thrown e |}
    | Pending => {| trace := trace (m w); final := final (m w); completion := Pending |}
    end.
Proof. unfold bind. destruct (m w) as [t w1 [a | e |]]; reflexivity. Qed.

(** A sequence that returns has gone through both parts. *)
Lemma bind_returned {A B : Type} (m : M A) (k : A -> M B) (w : World Backend) (b : B) :
  completion (bind m k w) = Returned b ->
  exists a,
    completion (m w) = Returned a
    /\ completion (k a (final (m w))) = Returned b
    /\ final (bind m k w) = final (k a (final (m w))).
Proof.
  rewrite bind_run. destruct (m w) as [t w1 [a | e |]]; cbn [trace completion final];
    try discriminate.
  rewrite prefixed_run; cbn [completion final].
  intros H. exists a. repeat split. exact H.
Qed.

(** *** The instance is never written *)

Lemma keepsThis_ret {A : Type} (a : A) : keepsThis (ret a).
Proof. intros w; reflexivity. Qed.

Lemma keepsThis_bind {A B : Type} (m : M A) (k : A -> M B) :
  keepsThis m ->
  (forall a, keepsThis (k a)) ->
  keepsThis (bind m k).
Proof.
  intros Hm Hk w. rewrite bind_run.
  specialize (Hm w). destruct (m w) as [t w1 [a | e |]]; cbn in *; auto.
  rewrite prefixed_run; cbn. rewrite Hk. exact Hm.
Qed.

Lemma keepsThis_try_catch {A : Type} (m handler : M A) :
  keepsThis m ->
  keepsThis handler ->
  keepsThis (try_catch m handler).
Proof.
  intros Hm Hh w. unfold try_catch.
  specialize (Hm w). destruct (m w) as [t w1 [a | e |]]; cbn in *; auto.
  rewrite prefixed_run; cbn. rewrite Hh. exact Hm.
Qed.

Lemma keepsThis_read {A : Type} (field : ElasticsearchSearchEngine -> A) :
  keepsThis (read field).
Proof. intros w; reflexivity. Qed.

Lemma keepsThis_await {A : Type} (e : Effect) (method : Backend -> Backend * Outcome A) :
  keepsThis (await e method).
Proof. intros w; unfold await. destruct (method (backend w)); reflexivity. Qed.

Lemma keepsThis_console_log (argument : LogArgument) :
  keepsThis (console_log argument).
Proof. intros w; reflexivity. Qed.

Lemma keepsThis_sleep (ms : Z) :
  keepsThis (sleep elapse ms).
Proof. intros w; reflexivity. Qed.

Lemma keepsThis_if {A : Type} (c : bool) (m1 m2 : M A) :
  keepsThis m1 -> keepsThis m2 ->
  keepsThis (if c then m1 else m2).
Proof. destruct c; auto. Qed.

Ltac keeps :=
  repeat first
    [ apply keepsThis_ret
    | apply keepsThis_read
    | apply keepsThis_await
    | apply keepsThis_console_log
    | apply keepsThis_sleep
    | apply keepsThis_try_catch
    | apply keepsThis_bind; [| intros ?]
    | apply keepsThis_if
    | match goal with |- keepsThis (match ?x with _ => _ end) => destruct x end
    | assumption ].

Lemma keepsThis_waitForConnection (fuel : nat) : keepsThis (waitForConnection fuel).
Proof.
  induction fuel as [| fuel IH]; simpl.
  - intros w; reflexivity.
  - unfold client_ping. keeps.
Qed.

Lemma keepsThis_ensureIndex : keepsThis ensureIndex.
Proof. unfold ensureIndex, client_indices_exists, client_indices. keeps. Qed.

Lemma keepsThis_initialize (fuel : nat) : keepsThis (initialize fuel).
Proof.
  unfold initialize, client_indices.
  apply keepsThis_bind; [apply keepsThis_waitForConnection | intros _].
  apply keepsThis_bind; [apply keepsThis_ensureIndex | intros _].
  keeps.
Qed.

Lemma keepsThis_index (items : list (SearchEngineItem.t T)) : keepsThis (index items).
Proof.
  unfold index, client_bulk. keeps. intros w; reflexivity.
Qed.

Lemma keepsThis_search (query : SearchQuery) : keepsThis (search query).
Proof.
  unfold search, client_search. keeps.
  intros w; unfold Converter_convert; reflexivity.
Qed.

Lemma keepsThis_drop (fuel : nat) : keepsThis (drop fuel).
Proof.
  unfold drop, client_indices.
  apply keepsThis_bind; [keeps | intros _; apply keepsThis_initialize].
Qed.

Lemma keepsThis_perform (fuel : nat) (op : Operation) : keepsThis (perform fuel op).
Proof.
  destruct op; simpl.
  - apply keepsThis_initialize.
  - apply keepsThis_index.
  - apply keepsThis_bind; [apply keepsThis_search | intros ?; apply keepsThis_ret].
  - apply keepsThis_drop.
Qed.

(** C8. Whatever public operations are issued on an instance, in whatever
    order and however each of them ends, the index name, the type name, the
    index settings and the mapping of the instance stay the values the
    constructor gave them. *)
Theorem fields_fixed_at_construction
    (indexName' typeName' : string) (indexSettings' indexMapping' : option Json)
    (b : Backend) (fuel : nat) (ops : list Operation) :
  let constructed := constructor indexName' typeName' indexSettings' indexMapping' in
  let after := this (session fuel ops {| this := constructed; backend := b |}) in
  after = constructed
  /\ indexName after = indexName'
  /\ typeName after = typeName'
  /\ indexSettings after = indexSettings'
  /\ mapping after = mapping constructed.
Proof.
  cbv zeta.
  assert (H : forall w, this (session fuel ops w) = this w).
  { induction ops as [| op ops IH]; intros w; simpl; [reflexivity|].
    rewrite IH. apply keepsThis_perform. }
  rewrite H; cbn. repeat split; reflexivity.
Qed.

(** *** index *)

Lemma fold_left_body (items : list (SearchEngineItem.t T)) (acc : list (BulkLine T)) :
  fold_left
    (fun body item =>
       body ++ [ActionIndex (SearchEngineItem.id item);
                Source (SearchEngineItem.document item)])
    items acc
  = acc ++ bulkBody items.
Proof.
  revert acc. induction items as [| item items IH]; intros acc; simpl.
  - now rewrite app_nil_r.
  - rewrite IH. now rewrite <- app_assoc.
Qed.

(** What [index] does, in one equation: one bulk call, and the outcome of
    that call decides the rest. *)
Lemma index_run (items : list (SearchEngineItem.t T)) (w : World Backend) :
  index items w
  = let (b, settled) :=
      Client.bulk client (indexName (this w)) (typeName (this w))
        (bulkBody items) (backend w) in
    {| trace := [Bulk (indexName (this w)) (typeName (this w)) (bulkBody items)];
       final := {| this := this w; backend := b |};
       completion :=
         match settled with
         | Resolved response =>
             if BulkResponse.errors response
             then Thrown (new_Error (JSON_stringify response))
             else Returned tt
         | Rejected reason => Thrown reason
         end |}.
Proof.
  unfold index, bind, read, ret, client_bulk, await, throw; simpl.
  rewrite fold_left_body; simpl.
  destruct (Client.bulk client _ _ _ _) as [b [response | reason]]; simpl; [| reflexivity].
  destruct (BulkResponse.errors response); reflexivity.
Qed.

(** C4. For every list of items, the empty one included, [index] issues
    exactly one backend call: a bulk call addressed to the configured index
    and type whose body is, item by item in input order, the upsert
    directive for the item's id followed by the item's document. *)
Theorem index_single_bulk (items : list (SearchEngineItem.t T)) (w : World Backend) :
  trace (index items w)
  = [Bulk (indexName (this w)) (typeName (this w)) (bulkBody items)]
  /\ count isBackendCall (trace (index items w)) = 1%nat.
Proof.
  rewrite index_run.
  destruct (Client.bulk client _ _ _ _) as [b settled]; simpl. split; reflexivity.
Qed.

(** C2, as the code has it. [index] fails exactly when the bulk call is
    rejected or its response has the [errors] flag set.  A rejection is
    passed on as it is; with the flag set the thrown value is a plain
    [Error] whose message is the text [JSON.stringify] gives for the entire
    response (every item's outcome included); with the flag clear [index]
    returns. *)
Theorem index_failure (items : list (SearchEngineItem.t T)) (w : World Backend) :
  let settled :=
    snd (Client.bulk client (indexName (this w)) (typeName (this w))
           (bulkBody items) (backend w)) in
  completion (index items w)
  = match settled with
    | Rejected reason => Thrown reason
    | Resolved response =>
        if BulkResponse.errors response
        then Thrown {| name := "Error"; message := JSON_stringify response |}
        else Returned tt
    end
  /\ ((exists error, completion (index items w) = Thrown error)
      <-> match settled with
          | Rejected _ => True
          | Resolved response => BulkResponse.errors response = true
          end).
Proof.
  cbv zeta. rewrite index_run.
  destruct (Client.bulk client _ _ _ _) as [b [response | reason]];
    cbn [snd completion]; (split; [reflexivity |]).
  - destruct (BulkResponse.errors response); split.
    + reflexivity.
    + intros _; eexists; reflexivity.
    + intros [error H]; discriminate H.
    + intros H; discriminate H.
  - split; [trivial | intros _; eexists; reflexivity].
Qed.

(** *** search *)

(** For a query the converter translates, [search] converts once, logs the
    converted query and executes it once, and issues nothing else; when
    the backend answers, the result has the reported total, the reported
    [took] as milliseconds, and the sources of the hits in the order of the
    answer; when the backend rejects the query the rejection is thrown,
    without another attempt. *)
Lemma search_once (query : SearchQuery) (w : World Backend)
    (elasticsearchQuery : ElasticsearchQuery) :
  convert query (indexName (this w)) (typeName (this w)) = Resolved elasticsearchQuery ->
  trace (search query w)
  = [Convert query (indexName (this w)) (typeName (this w));
     ConsoleLog (LogQuery elasticsearchQuery);
     Search elasticsearchQuery]
  /\ count isConvert (trace (search query w)) = 1%nat
  /\ count isBackendCall (trace (search query w)) = 1%nat
  /\ completion (search query w)
     = match snd (Client.search client elasticsearchQuery (backend w)) with
       | Resolved result =>
           Returned
             {| SearchResult.total :=
                  SearchResponse.Hits.total (SearchResponse.hits result);
                SearchResult.milliseconds := SearchResponse.took result;
                SearchResult.items :=
                  map SearchResponse._source
                      (SearchResponse.Hits.hits (SearchResponse.hits result)) |}
       | Rejected reason => Thrown reason
       end.
Proof.
  intros Hconvert.
  unfold search, bind, read, ret, Converter_convert, console_log, client_search, await;
    simpl.
  rewrite Hconvert; simpl.
  destruct (Client.search client elasticsearchQuery (backend w)) as [b [result | reason]];
    simpl; repeat split; reflexivity.
Qed.

(** When the converter throws, nothing reaches the backend. *)
Lemma search_unconverted (query : SearchQuery) (w : World Backend) (reason : ErrorObject) :
  convert query (indexName (this w)) (typeName (this w)) = Rejected reason ->
  search query w
  = {| trace := [Convert query (indexName (this w)) (typeName (this w))];
       final := w;
       completion := Thrown reason |}.
Proof.
  intros Hconvert.
  unfold search, bind, read, ret, Converter_convert; simpl.
  rewrite Hconvert; simpl. reflexivity.
Qed.

(** C5, as the code has it. For every query [search] converts exactly
    once.  When the converter returns a backend query, [search] logs it
    and executes it exactly once, with no other backend call and no second
    attempt: the result has the reported total, the reported [took] as
    milliseconds and the sources of the hits in the order of the answer,
    and a rejection by the backend is thrown as it is.  When the converter
    throws, [search] throws the same error and no backend query is
    executed. *)
Theorem search_converts_once (query : SearchQuery) (w : World Backend) :
  count isConvert (trace (search query w)) = 1%nat
  /\ match convert query (indexName (this w)) (typeName (this w)) with
     | Resolved elasticsearchQuery =>
         trace (search query w)
         = [Convert query (indexName (this w)) (typeName (this w));
            ConsoleLog (LogQuery elasticsearchQuery);
            Search elasticsearchQuery]
         /\ count isBackendCall (trace (search query w)) = 1%nat
         /\ completion (search query w)
            = match snd (Client.search client elasticsearchQuery (backend w)) with
              | Resolved result =>
                  Returned
                    {| SearchResult.total :=
                         SearchResponse.Hits.total (SearchResponse.hits result);
                       SearchResult.milliseconds := SearchResponse.took result;
                       SearchResult.items :=
                         map SearchResponse._source
                             (SearchResponse.Hits.hits (SearchResponse.hits result)) |}
              | Rejected reason => Thrown reason
              end
     | Rejected reason =>
         trace (search query w)
         = [Convert query (indexName (this w)) (typeName (this w))]
         /\ count isBackendCall (trace (search query w)) = 0%nat
         /\ completion (search query w) = Thrown reason
     end.
Proof.
  destruct (convert query (indexName (this w)) (typeName (this w)))
    as [elasticsearchQuery | reason] eqn:Hconvert.
  - destruct (search_once query w elasticsearchQuery Hconvert)
      as (Htrace & Hconversions & Hcalls & Hcompletion).
    repeat split; assumption.
  - rewrite (search_unconverted query w reason Hconvert).
    repeat split; reflexivity.
Qed.

(** *** drop *)

Lemma drop_run (fuel : nat) (w : World Backend) :
  drop fuel w
  = let (b, settled) :=
      Client.indices client (Delete (indexName (this w))) (backend w) in
    match settled with
    | Resolved _ =>
        prefixed [Indices (Delete (indexName (this w)))]
          (initialize fuel {| this := this w; backend := b |})
    | Rejected reason =>
        {| trace := [Indices (Delete (indexName (this w)))];
           final := {| this := this w; backend := b |};
           completion := Thrown reason |}
    end.
Proof.
  unfold drop, bind, read, ret, client_indices, await; simpl.
  destruct (Client.indices client _ _) as [b [[] | reason]]; reflexivity.
Qed.

(** C10. The first thing [drop] does is the delete call for the configured
    index; no existence check precedes it.  When that call is rejected,
    the rejection is thrown, the delete call is the only effect of the run
    (no probe, no existence check, no create, no configuration call), and
    the backend is left as the failed delete left it. *)
Theorem drop_delete_unconditional (fuel : nat) (w : World Backend) :
  (exists rest : Trace,
      trace (drop fuel w) = Indices (Delete (indexName (this w))) :: rest)
  /\ (forall (b : Backend) (reason : ErrorObject),
         Client.indices client (Delete (indexName (this w))) (backend w)
         = (b, Rejected reason) ->
         drop fuel w
         = {| trace := [Indices (Delete (indexName (this w)))];
              final := {| this := this w; backend := b |};
              completion := Thrown reason |}).
Proof.
  rewrite drop_run.
  destruct (Client.indices client _ _) as [b [[] | reason]]; split.
  - rewrite prefixed_run; eexists; reflexivity.
  - intros b' reason' H; discriminate H.
  - eexists; reflexivity.
  - intros b' reason' H; injection H as <- <-; reflexivity.
Qed.

(** *** waitForConnection *)

(** One round of the loop: probe, log, sleep, and go round again unless the
    probe resolved. *)
Lemma waitForConnection_round (fuel : nat) (w : World Backend) :
  waitForConnection (S fuel) w
  = let (b, settled) := Client.ping client 250 (backend w) in
    match settled with
    | Resolved _ =>
        {| trace := successfulAttempt;
           final := {| this := this w; backend := elapse 2000 b |};
           completion := Returned tt |}
    | Rejected _ =>
        prefixed failedAttempt
          (waitForConnection fuel {| this := this w; backend := elapse 2000 b |})
    end.
Proof.
  simpl. unfold bind, try_catch, client_ping, await, console_log, sleep, ret; simpl.
  destruct (Client.ping client 250 (backend w)) as [b [[] | reason]]; simpl.
  - reflexivity.
  - destruct (waitForConnection fuel _) as [t w1 c]; simpl. destruct c; reflexivity.
Qed.

Lemma count_app (p : @Effect T SearchQuery ElasticsearchQuery -> bool) (t1 t2 : Trace) :
  count p (t1 ++ t2) = (count p t1 + count p t2)%nat.
Proof.
  unfold count. induction t1 as [| e t1 IH]; simpl; [reflexivity|].
  destruct (p e); simpl; lia.
Qed.

Lemma count_failedAttempts (p : @Effect T SearchQuery ElasticsearchQuery -> bool) (n : nat) :
  count p (concat (repeat failedAttempt n)) = (n * count p failedAttempt)%nat.
Proof.
  induction n as [| n IH]; simpl; [reflexivity|].
  change (count p (failedAttempt ++ concat (repeat failedAttempt n))
          = (count p failedAttempt + n * count p failedAttempt)%nat).
  rewrite count_app, IH. reflexivity.
Qed.

Lemma waitForConnection_probes (n : nat) :
  forall (fuel : nat) (w : World Backend) (b' : Backend),
    probes n (backend w) b' ->
    (n < fuel)%nat ->
    waitForConnection fuel w
    = {| trace := concat (repeat failedAttempt n) ++ successfulAttempt;
         final := {| this := this w; backend := elapse 2000 b' |};
         completion := Returned tt |}.
Proof.
  induction n as [| n IH]; intros fuel w b' Hprobes Hfuel;
    (destruct fuel as [| fuel]; [lia |]);
    rewrite waitForConnection_round; inversion Hprobes; subst.
  - rewrite H. reflexivity.
  - rewrite H0.
    rewrite (IH fuel {| this := this w; backend := elapse 2000 b1 |} b');
      [| assumption | lia].
    reflexivity.
Qed.

(** [initialize] begins with the connection gate. *)
Lemma initialize_begins_with_gate (fuel : nat) (w : World Backend) :
  exists rest : Trace,
    trace (initialize fuel w) = trace (waitForConnection fuel w) ++ rest.
Proof.
  unfold initialize. rewrite bind_run.
  destruct (waitForConnection fuel w) as [t w1 [[] | e |]]; cbn [trace final completion].
  - rewrite prefixed_run. eexists; reflexivity.
  - exists []. now rewrite app_nil_r.
  - exists []. now rewrite app_nil_r.
Qed.

(** C3, as the code has it. When the health probe is rejected on the first
    [n] attempts and resolves on the next, the connection gate, given at
    least [n + 1] rounds, returns; it has issued exactly [n + 1] pings and
    slept exactly [n + 1] times for 2000 ms, once after every probe, the
    resolved one included; these effects open the run of [initialize]. *)
Theorem gate_after_rejected_probes (n fuel : nat) (w : World Backend) (b' : Backend) :
  probes n (backend w) b' ->
  (n < fuel)%nat ->
  waitForConnection fuel w
  = {| trace := concat (repeat failedAttempt n) ++ successfulAttempt;
       final := {| this := this w; backend := elapse 2000 b' |};
       completion := Returned tt |}
  /\ count isPing (trace (waitForConnection fuel w)) = S n
  /\ count isSleep (trace (waitForConnection fuel w)) = S n
  /\ (exists rest : Trace,
         trace (initialize fuel w)
         = (concat (repeat failedAttempt n) ++ successfulAttempt) ++ rest).
Proof.
  intros Hprobes Hfuel.
  pose proof (waitForConnection_probes n fuel w b' Hprobes Hfuel) as Hrun.
  split; [exact Hrun |].
  destruct (initialize_begins_with_gate fuel w) as [rest Hrest].
  rewrite Hrun in *; simpl in *.
  rewrite !count_app, !count_failedAttempts.
  repeat split; [cbn; lia | cbn; lia | exists rest; exact Hrest].
Qed.

(** *** ensureIndex *)

Lemma ensureIndex_run (w : World Backend) :
  ensureIndex w
  = let (b, settled) := Client.indices_exists client (indexName (this w)) (backend w) in
    match settled with
    | Resolved true =>
        {| trace := [IndicesExists (indexName (this w))];
           final := {| this := this w; backend := b |};
           completion := Returned tt |}
    | Resolved false =>
        let (b1, created) := Client.indices client (Create (indexName (this w))) b in
        {| trace := [IndicesExists (indexName (this w));
                     Indices (Create (indexName (this w)))];
           final := {| this := this w; backend := b1 |};
           completion :=
             match created with
             | Resolved _ => Returned tt
             | Rejected reason => Thrown reason
             end |}
    | Rejected reason =>
        {| trace := [IndicesExists (indexName (this w))];
           final := {| this := this w; backend := b |};
           completion := Thrown reason |}
    end.
Proof.
  unfold ensureIndex, bind, read, ret, client_indices_exists, client_indices, await; simpl.
  destruct (Client.indices_exists client _ _) as [b [[|] | reason]]; simpl;
    try reflexivity.
  destruct (Client.indices client _ b) as [b1 [[] | reason]]; reflexivity.
Qed.

(** C6. [ensureIndex] issues a create call exactly when the existence
    check reports the index absent.  On a backend whose existence check
    leaves it as it is and reports an index that has just been created,
    running [ensureIndex] twice in a row ends in the same backend state, and
    in the same way, as running it once. *)
Theorem ensureIndex_creates_when_absent (w : World Backend) :
  let name := indexName (this w) in
  let check := Client.indices_exists client name (backend w) in
  ((exists i, In (Indices (Create i)) (trace (ensureIndex w)))
   <-> snd check = Resolved false)
  /\ (fst check = backend w ->
      (forall b1,
          Client.indices client (Create name) (backend w) = (b1, Resolved tt) ->
          Client.indices_exists client name b1 = (b1, Resolved true)) ->
      final (bind ensureIndex (fun _ => ensureIndex) w) = final (ensureIndex w)
      /\ completion (bind ensureIndex (fun _ => ensureIndex) w)
         = completion (ensureIndex w)).
Proof.
  cbv zeta. split.
  - rewrite ensureIndex_run.
    destruct (Client.indices_exists client _ _) as [b [[|] | reason]]; simpl.
    + split; [intros [i [H | []]]; discriminate H | intros H; discriminate H].
    + destruct (Client.indices client _ b) as [b1 created]; simpl.
      split; [reflexivity | intros _; eexists; right; left; reflexivity].
    + split; [intros [i [H | []]]; discriminate H | intros H; discriminate H].
  - intros Hquery Hcreated. rewrite bind_run.
    destruct w as [e b0]; cbn [this backend] in *.
    rewrite (ensureIndex_run {| this := e; backend := b0 |}); cbn [this backend].
    destruct (Client.indices_exists client (indexName e) b0)
      as [b [[|] | reason]] eqn:Hcheck; cbn [fst] in Hquery; subst b;
      cbn [trace final completion].
    + rewrite prefixed_run, ensureIndex_run; cbn [this backend].
      rewrite Hcheck. split; reflexivity.
    + destruct (Client.indices client (Create (indexName e)) b0)
        as [b1 [[] | reason]] eqn:Hcreate; cbn [trace final completion].
      * rewrite prefixed_run, ensureIndex_run; cbn [this backend].
        rewrite (Hcreated b1 eq_refl). split; reflexivity.
      * split; reflexivity.
    + split; reflexivity.
Qed.

(** *** initialize *)

Lemma prefixed_prefixed {A : Type} (t0 t1 : Trace) (r : Run A) :
  prefixed t0 (prefixed t1 r) = prefixed (t0 ++ t1) r.
Proof. destruct r; cbn. now rewrite app_assoc. Qed.

(** How a list of index calls ends: all of them resolve, or the first one
    to be rejected is the last one issued. *)
Lemma issue_cases (calls : list IndicesCall) :
  forall w : World Backend,
    (exists b2,
        served calls (backend w) b2
        /\ issue calls w
           = {| trace := map Indices calls;
                final := {| this := this w; backend := b2 |};
                completion := Returned tt |})
    \/ (exists pre call post b1 b2 reason,
           calls = pre ++ call :: post
           /\ served pre (backend w) b1
           /\ Client.indices client call b1 = (b2, Rejected reason)
           /\ issue calls w
              = {| trace := map Indices (pre ++ [call]);
                   final := {| this := this w; backend := b2 |};
                   completion := Thrown reason |}).
Proof.
  induction calls as [| call calls IH]; intros [e b]; cbn [this backend].
  - left. exists b. split; [constructor | reflexivity].
  - simpl. rewrite bind_run. unfold client_indices, await; cbn [backend this].
    destruct (Client.indices client call b) as [b1 [[] | reason]] eqn:Hcall;
      cbn [trace final completion].
    + destruct (IH {| this := e; backend := b1 |})
        as [(b2 & Hserved & Hrun) | (pre & c & post & b' & b2 & reason & -> & Hserved & Hc & Hrun)];
        cbn [this backend] in *; rewrite Hrun; cbn [prefixed].
      * left. exists b2. split; [econstructor; eassumption | reflexivity].
      * right. exists (call :: pre), c, post, b', b2, reason.
        repeat split; [econstructor; eassumption | assumption].
    + right. exists [], call, calls, b, b1, reason.
      repeat split; [constructor | assumption].
Qed.

(** [initialize] is the gate, then [ensureIndex], then the configuration
    calls of the instance. *)
Lemma initialize_run (fuel : nat) (w : World Backend) :
  initialize fuel w
  = bind (bind (waitForConnection fuel) (fun _ => ensureIndex))
         (fun _ w1 => issue (configurationCalls (this w1)) w1) w.
Proof.
  unfold initialize.
  rewrite (bind_run (waitForConnection fuel)).
  rewrite (bind_run (bind (waitForConnection fuel) (fun _ => ensureIndex))).
  rewrite (bind_run (waitForConnection fuel) (fun _ => ensureIndex)).
  destruct (waitForConnection fuel w) as [t0 w0 [[] | e |]];
    cbn [trace final completion]; try reflexivity.
  rewrite (bind_run ensureIndex).
  destruct (ensureIndex w0) as [t1 [e b] [[] | reason |]];
    cbn [prefixed trace final completion]; try reflexivity.
  rewrite prefixed_prefixed. f_equal.
  unfold configurationCalls.
  destruct (indexSettings e) as [settings |] eqn:Hsettings,
           (mapping e) as [schema |] eqn:Hmapping;
    repeat first
      [ progress cbn
      | rewrite Hsettings
      | rewrite Hmapping
      | progress unfold bind, read, ret, client_indices, await
      | match goal with
        | |- context [Client.indices client ?c ?x] =>
            destruct (Client.indices client c x) as [? [[] | ?]]
        end ];
    reflexivity.
Qed.


(** C1. Once the gate and [ensureIndex] have returned, the rest of
    [initialize] is the configuration sequence of the instance (close, put
    settings if settings were supplied, put mapping if a mapping was
    supplied, open, refresh) issued in that order: either every call
    resolves and [initialize] returns having issued exactly these calls, or
    one call is rejected, it is the last call issued, and its rejection is
    thrown by [initialize].  With neither settings nor mapping, nothing is
    issued after [ensureIndex]. *)
Theorem initialize_configuration_sequence
    (fuel : nat) (w w1 : World Backend) (t0 : Trace) :
  bind (waitForConnection fuel) (fun _ => ensureIndex) w
  = {| trace := t0; final := w1; completion := Returned tt |} ->
  let calls := configurationCalls (this w) in
  ((exists b2,
       served calls (backend w1) b2
       /\ initialize fuel w
          = {| trace := t0 ++ map Indices calls;
               final := {| this := this w; backend := b2 |};
               completion := Returned tt |})
   \/ (exists pre call post b1 b2 reason,
          calls = pre ++ call :: post
          /\ served pre (backend w1) b1
          /\ Client.indices client call b1 = (b2, Rejected reason)
          /\ initialize fuel w
             = {| trace := t0 ++ map Indices (pre ++ [call]);
                  final := {| this := this w; backend := b2 |};
                  completion := Thrown reason |}))
  /\ (indexSettings (this w) = None -> mapping (this w) = None ->
      initialize fuel w = {| trace := t0; final := w1; completion := Returned tt |}).
Proof.
  intros Hgate calls.
  assert (Hthis : this w1 = this w).
  { change w1 with (final {| trace := t0; final := w1; completion := Returned tt |}).
    rewrite <- Hgate.
    apply (keepsThis_bind (waitForConnection fuel) (fun _ => ensureIndex)).
    - apply keepsThis_waitForConnection.
    - intros _; apply keepsThis_ensureIndex. }
  rewrite initialize_run, bind_run, Hgate.
  cbn [trace final completion]. rewrite Hthis. fold calls.
  split.
  - destruct (issue_cases calls w1)
      as [(b2 & Hserved & Hrun) | (pre & c & post & b1 & b2 & reason & Hcalls & Hserved & Hc & Hrun)];
      rewrite Hrun; cbn [prefixed]; rewrite Hthis.
    + left. exists b2. split; [assumption | reflexivity].
    + right. exists pre, c, post, b1, b2, reason. repeat split; assumption.
  - intros Hsettings Hmapping. subst calls. unfold configurationCalls.
    rewrite Hsettings, Hmapping. cbn. rewrite app_nil_r. destruct w1; reflexivity.
Qed.

(** Only probes, log lines and sleeps occur while waiting for the
    connection, and only the existence check and a create call in
    [ensureIndex]. *)
Lemma waitForConnection_no_indices_call (fuel : nat) :
  forall (w : World Backend) (call : IndicesCall),
    ~ In (Indices call) (trace (waitForConnection fuel w)).
Proof.
  induction fuel as [| fuel IH]; intros w call.
  - intros [].
  - rewrite waitForConnection_round.
    destruct (Client.ping client 250 (backend w)) as [b [[] | reason]];
      cbn [trace].
    + intros [H | [H | [H | []]]]; discriminate H.
    + rewrite prefixed_run; cbn [trace].
      intros [H | [H | [H | H]]]; try discriminate H. exact (IH _ _ H).
Qed.

Lemma ensureIndex_indices_call (w : World Backend) (call : IndicesCall) :
  In (Indices call) (trace (ensureIndex w)) -> call = Create (indexName (this w)).
Proof.
  rewrite ensureIndex_run.
  destruct (Client.indices_exists client _ _) as [b [[|] | reason]]; cbn [trace].
  - intros [H | []]; discriminate H.
  - destruct (Client.indices client _ b) as [b1 created]; cbn [trace].
    intros [H | [H | []]]; [discriminate H | now injection H].
  - intros [H | []]; discriminate H.
Qed.










End Properties.

(** ** The class in front of the reference cluster *)

Section OnTheCluster.
Context {T SearchQuery : Type}.
Variable validates : T -> bool.

Local Abbreviation client := (Cluster.client validates).
Local Abbreviation waitForConnection :=
  (waitForConnection (SearchQuery := SearchQuery) client Cluster.elapse).
Local Abbreviation ensureIndex := (ensureIndex (SearchQuery := SearchQuery) client).
Local Abbreviation initialize :=
  (initialize (SearchQuery := SearchQuery) client Cluster.elapse).
Local Abbreviation drop := (drop (SearchQuery := SearchQuery) client Cluster.elapse).
Local Abbreviation issue := (issue (SearchQuery := SearchQuery) client).

Lemma reach_resolved {A : Type} (serve : Cluster.t T -> Cluster.t T * Outcome A)
    (c c' : Cluster.t T) (a : A) :
  Cluster.reach serve c = (c', Resolved a) ->
  exists c0,
    serve c0 = (c', Resolved a)
    /\ Cluster.indices c0 = Cluster.indices c.
Proof.
  unfold Cluster.reach.
  destruct (0 <? Cluster.boot c); [discriminate |].
  destruct (Cluster.outage c) as [[| n] |]; [discriminate | |]; intros H;
    eexists; (split; [exact H | reflexivity]).
Qed.

Lemma reach_rejected {A : Type} (serve : Cluster.t T -> Cluster.t T * Outcome A)
    (c : Cluster.t T) :
  (forall c0, Cluster.indices (fst (serve c0)) = Cluster.indices c0) ->
  Cluster.indices (fst (Cluster.reach serve c)) = Cluster.indices c.
Proof.
  intros Hserve. unfold Cluster.reach.
  destruct (0 <? Cluster.boot c); [reflexivity |].
  destruct (Cluster.outage c) as [[| n] |]; [reflexivity | |]; rewrite Hserve; reflexivity.
Qed.

(** Waiting for the connection leaves the indices alone. *)
Lemma waitForConnection_indices (fuel : nat) :
  forall w : World (Cluster.t T),
    Cluster.indices (backend (final (waitForConnection fuel w)))
    = Cluster.indices (backend w).
Proof.
  induction fuel as [| fuel IH]; intros w; [reflexivity |].
  rewrite waitForConnection_round.
  pose proof (reach_rejected (fun c => (c, Resolved tt)) (backend w)
                (fun c0 => eq_refl)) as Hping.
  change (Cluster.reach _ (backend w)) with (Client.ping client 250 (backend w)) in Hping.
  destruct (Client.ping client 250 (backend w)) as [b [[] | reason]];
    rewrite ?prefixed_run; cbn [fst final backend] in *.
  - exact Hping.
  - rewrite IH. exact Hping.
Qed.

(** [ensureIndex] on a cluster without the index creates it afresh. *)
Lemma ensureIndex_creates (w : World (Cluster.t T)) :
  Cluster.indices (backend w) !! indexName (this w) = None ->
  completion (ensureIndex w) = Returned tt ->
  Cluster.indices (backend (final (ensureIndex w))) !! indexName (this w)
  = Some Cluster.fresh.
Proof.
  intros Habsent. rewrite ensureIndex_run.
  destruct (Client.indices_exists client _ _) as [c1 [found | reason]] eqn:Hcheck;
    [| discriminate].
  apply reach_resolved in Hcheck. destruct Hcheck as (c0 & Hcheck & Hindices).
  injection Hcheck as <- <-. rewrite Hindices, Habsent.
  rewrite bool_decide_eq_false_2 by (intros [? ?]; discriminate).
  destruct (Client.indices client _ c0) as [c2 [[] | reason]] eqn:Hcreate;
    cbn [completion final backend]; [intros _ | discriminate].
  apply reach_resolved in Hcreate. destruct Hcreate as (c1 & Hcreate & Hindices1).
  cbn [Cluster.serve_indices] in Hcreate. rewrite Hindices1, Hindices, Habsent in Hcreate.
  injection Hcreate as <-. cbn. apply lookup_insert_eq.
Qed.

(** A resolved configuration call has done its work on the index. *)
Lemma call_resolved (call : IndicesCall) (c c' : Cluster.t T) (ix : Cluster.Index T) :
  match call with Create _ | Delete _ => False | _ => True end ->
  Client.indices client call c = (c', Resolved tt) ->
  Cluster.indices c !! Cluster.target call = Some ix ->
  Cluster.indices c' !! Cluster.target call = Some (Cluster.configured call ix).
Proof.
  intros Hkind Hcall Hix.
  apply reach_resolved in Hcall. destruct Hcall as (c0 & Hcall & Hindices).
  rewrite <- Hindices in Hix.
  destruct call; try contradiction; cbn [Cluster.target] in Hix;
    cbn [Cluster.serve_indices] in Hcall; unfold Cluster.on_index in Hcall;
    rewrite Hix in Hcall;
    try destruct (Cluster.opened ix) eqn:Hopened; try discriminate Hcall;
    injection Hcall as <-; cbn; apply lookup_insert_eq.
Qed.

(** A served sequence of configuration calls on one index. *)
Lemma served_configured (name : string) (calls : list IndicesCall) :
  Forall (fun call =>
            Cluster.target call = name
            /\ match call with Create _ | Delete _ => False | _ => True end) calls ->
  forall (c c' : Cluster.t T) (ix : Cluster.Index T),
    served client calls c c' ->
    Cluster.indices c !! name = Some ix ->
    Cluster.indices c' !! name
    = Some (fold_left (fun ix call => Cluster.configured call ix) calls ix).
Proof.
  induction 1 as [| call calls [Htarget Hkind] _ IH]; intros c c' ix Hserved Hix;
    inversion Hserved; subst.
  - exact Hix.
  - cbn [fold_left]. eapply IH; [eassumption |].
    eapply call_resolved; eassumption.
Qed.

(** On the cluster, an [initialize] that returns from a state without the
    index leaves the index open and without documents, with the settings
    of the instance and, under the type name, the mapping given to the
    constructor; for the type name "__proto__" the instance holds no
    mapping of that name and the cluster is sent the empty object. *)
Lemma initialize_builds_index
    (name type : string) (settings mapping : option Json)
    (fuel : nat) (c : Cluster.t T) :
  let w := {| this := constructor name type settings mapping; backend := c |} in
  Cluster.indices c !! name = None ->
  completion (initialize fuel w) = Returned tt ->
  Cluster.indices (backend (final (initialize fuel w))) !! name
  = Some {| Cluster.opened := true;
            Cluster.settings := settings;
            Cluster.mappings :=
              match mapping with
              | Some schema =>
                  [(type, if String.eqb type "__proto__" then JObject [] else schema)]
              | None => []
              end;
            Cluster.documents := [] |}.
Proof.
  intros w Habsent. rewrite initialize_run. intros Hreturned.
  apply bind_returned in Hreturned.
  destruct Hreturned as ([] & Hprefix & Hissue & ->).
  apply bind_returned in Hprefix.
  destruct Hprefix as ([] & Hgate & Hensure & Hfinal).
  rewrite Hfinal in *. clear Hfinal.
  pose proof (waitForConnection_indices fuel w) as Hindices.
  pose proof (keepsThis_waitForConnection (SearchQuery := SearchQuery)
                client Cluster.elapse fuel w) as Hthis.
  set (w1 := final (waitForConnection fuel w)) in *.
  pose proof (ensureIndex_creates w1) as Hfresh.
  pose proof (keepsThis_ensureIndex (SearchQuery := SearchQuery) client w1) as Hthis1.
  set (w2 := final (ensureIndex w1)) in *.
  rewrite Hthis in *. rewrite Hindices in Hfresh.
  specialize (Hfresh Habsent Hensure).
  destruct (issue_cases (SearchQuery := SearchQuery) client
              (configurationCalls (this w2)) w2)
    as [(c' & Hserved & Hrun) | (? & ? & ? & ? & ? & ? & _ & _ & _ & Hrun)];
    rewrite Hrun in *; [| discriminate].
  cbn [final backend]. rewrite Hthis1 in Hserved.
  assert (Hcalls :
            Forall (fun call =>
                      Cluster.target call = name
                      /\ match call with Create _ | Delete _ => False | _ => True end)
                   (configurationCalls (this w))).
  { unfold configurationCalls, w; cbn.
    destruct settings, mapping; cbn; repeat constructor. }
  rewrite (served_configured name _ Hcalls _ _ _ Hserved Hfresh).
  unfold configurationCalls, w, constructor, set_property; cbn.
  destruct settings, mapping; cbn; try reflexivity;
    destruct (String.eqb type "__proto__") eqn:Hproto;
    cbn; rewrite ?String.eqb_refl, ?Hproto; reflexivity.
Qed.


(** On the cluster, a [drop] that returns has deleted the index and built
    it anew. *)
Lemma drop_rebuilds_index
    (name type : string) (settings mapping : option Json)
    (fuel : nat) (c : Cluster.t T) :
  let w := {| this := constructor name type settings mapping; backend := c |} in
  completion (drop fuel w) = Returned tt ->
  Cluster.indices (backend (final (drop fuel w))) !! name
  = Some {| Cluster.opened := true;
            Cluster.settings := settings;
            Cluster.mappings :=
              match mapping with
              | Some schema =>
                  [(type, if String.eqb type "__proto__" then JObject [] else schema)]
              | None => []
              end;
            Cluster.documents := [] |}.
Proof.
  intros w. rewrite drop_run. cbn [this backend indexName constructor w].
  destruct (Client.indices client (Delete name) c) as [c1 [[] | reason]] eqn:Hdelete;
    rewrite ?prefixed_run; cbn [completion final]; [| discriminate].
  apply reach_resolved in Hdelete. destruct Hdelete as (c0 & Hdelete & Hindices).
  cbn [Cluster.serve_indices] in Hdelete.
  destruct (Cluster.indices c0 !! name); [| discriminate Hdelete].
  injection Hdelete as <-.
  apply initialize_builds_index. cbn. apply lookup_delete_eq.
Qed.

End OnTheCluster.


(** ** Runs of the small installation *)

(** C1 at work: the cluster is up, the index is created, and the five
    configuration calls follow. *)
Lemma initialize_configuration_sequence_witness :
  bind (Demo.waitForConnection 1) (fun _ => Demo.ensureIndex) (Demo.world 0)
  = {| trace := Demo.prepared;
       final := {| this := Demo.engine; backend := Demo.created |};
       completion := Returned tt |}
  /\ trace (Demo.initialize 1 (Demo.world 0))
     = Demo.prepared
       ++ map Indices
            [Close "films";
             PutSettings "films" Demo.settings;
             PutMapping "films" "film" (JObject [("film", Demo.schema)]);
             Open "films"; Refresh "films"].
Proof.
  assert (Hgate :
            bind (Demo.waitForConnection 1) (fun _ => Demo.ensureIndex) (Demo.world 0)
            = {| trace := Demo.prepared;
                 final := {| this := Demo.engine; backend := Demo.created |};
                 completion := Returned tt |})
    by (vm_compute; reflexivity).
  split; [exact Hgate |].
  destruct (proj1 (initialize_configuration_sequence Demo.client Cluster.elapse 1
                     (Demo.world 0) _ _ Hgate))
    as [(b2 & _ & Hrun) | (pre & call & post & b1 & b2 & reason & _ & _ & _ & Hrun)].
  - unfold Demo.initialize. rewrite Hrun. reflexivity.
  - exfalso. apply (f_equal completion) in Hrun. vm_compute in Hrun. discriminate Hrun.
Defined.

(** C2 fails on the code in two ways.  On a cluster without the index the
    bulk call is rejected and [index] throws although no response carries
    an [errors] flag; and when the flag is set, what is thrown is a plain
    [Error] with the text of the response as its message, not a
    [BulkIndexError]. *)
Lemma index_throws_plain_Error :
  (exists reason,
      Client.bulk Demo.client "films" "film" (bulkBody Demo.batch) (Cluster.start 0)
      = (Cluster.start 0, Rejected reason)
      /\ completion (Demo.index Demo.batch (Demo.world 0)) = Thrown reason)
  /\ (exists b error,
         Client.bulk Demo.client "films" "film" (bulkBody Demo.batch)
           (backend Demo.ready)
         = (b, Resolved Demo.answer)
         /\ BulkResponse.errors Demo.answer = true
         /\ completion (Demo.index Demo.batch Demo.ready) = Thrown error
         /\ name error = "Error"
         /\ message error = JSON.stringify Demo.answer
         /\ ~ isBulkIndexError error).
Proof.
  split.
  - exists Cluster.NotFound. split; vm_compute; reflexivity.
  - eexists. exists (new_Error (JSON.stringify Demo.answer)).
    repeat split; try (vm_compute; reflexivity).
    unfold isBulkIndexError; cbn. discriminate.
Qed.

(** C3 fails on the code already when the first probe resolves: the gate
    then still sleeps once for 2000 ms before it returns, so it neither
    returns at once on the resolved probe nor sleeps as many times as
    probes were rejected (none). *)
Lemma gate_sleeps_after_resolved_probe :
  probes Demo.client Cluster.elapse 0 (Cluster.start 0) (Cluster.start 0)
  /\ waitForConnection (SearchQuery := Demo.SearchQuery) Demo.client Cluster.elapse 1
       (Demo.world 0)
     = {| trace :=
            [Ping 250; ConsoleLog (LogString "connected to elasticsearch"); Sleep 2000];
          final := Demo.world 0;
          completion := Returned tt |}
  /\ count isSleep
       (trace (waitForConnection (SearchQuery := Demo.SearchQuery) Demo.client
                 Cluster.elapse 1 (Demo.world 0)))
     <> 0%nat.
Proof.
  split; [constructor; reflexivity |].
  split; [vm_compute; reflexivity | vm_compute; discriminate].
Qed.

(** C3 at work: a cluster that needs 4000 ms rejects two probes and
    resolves the third. *)
Lemma gate_after_rejected_probes_witness :
  probes Demo.client Cluster.elapse 2 (Cluster.start 4000) (Cluster.start 0)
  /\ count isPing
       (trace (waitForConnection (SearchQuery := Demo.SearchQuery) Demo.client
                 Cluster.elapse 5 (Demo.world 4000))) = 3%nat
  /\ count isSleep
       (trace (waitForConnection (SearchQuery := Demo.SearchQuery) Demo.client
                 Cluster.elapse 5 (Demo.world 4000))) = 3%nat.
Proof.
  assert (Hprobes :
            probes Demo.client Cluster.elapse 2 (Cluster.start 4000) (Cluster.start 0)).
  { eapply probes_rejected; [reflexivity |].
    eapply probes_rejected; [reflexivity |].
    apply probes_resolved. reflexivity. }
  split; [exact Hprobes |].
  destruct (gate_after_rejected_probes (SearchQuery := Demo.SearchQuery)
              Demo.client Cluster.elapse 2 5 (Demo.world 4000) (Cluster.start 0)
              Hprobes ltac:(lia))
    as (_ & Hpings & Hsleeps & _).
  split; assumption.
Defined.

(** C5 at work: the first page of the initialized installation. *)
Lemma search_converts_once_witness :
  count isConvert (trace (Demo.search 0%nat Demo.ready)) = 1%nat
  /\ count isBackendCall (trace (Demo.search 0%nat Demo.ready)) = 1%nat.
Proof.
  destruct (search_converts_once Demo.client Demo.convert 0%nat Demo.ready)
    as (Hconversions & _ & Hcalls & _).
  split; assumption.
Defined.

(** C5 fails on the code for a query the converter refuses: page 100 is
    beyond what the narrow converter knows, so [search] throws what the
    converter threw, after one conversion and without any backend query,
    where the claim has exactly one. *)
Lemma search_without_backend_query :
  Demo.narrow_convert 100%nat "films" "film"
  = Rejected {| name := "RangeError"; message := "page out of range" |}
  /\ trace (search Demo.client Demo.narrow_convert 100%nat Demo.ready)
     = [Convert 100%nat "films" "film"]
  /\ completion (search Demo.client Demo.narrow_convert 100%nat Demo.ready)
     = Thrown {| name := "RangeError"; message := "page out of range" |}
  /\ count isBackendCall
       (trace (search Demo.client Demo.narrow_convert 100%nat Demo.ready))
     = 0%nat
  /\ count isBackendCall
       (trace (search Demo.client Demo.narrow_convert 100%nat Demo.ready))
     <> 1%nat.
Proof.
  repeat split; try (vm_compute; reflexivity).
  vm_compute. discriminate.
Qed.

(** C6 at work: on a cluster without the index, the second [ensureIndex]
    finds what the first created. *)
Lemma ensureIndex_creates_when_absent_witness :
  final (bind (ensureIndex (SearchQuery := Demo.SearchQuery) Demo.client)
              (fun _ => ensureIndex Demo.client) (Demo.world 0))
  = final (ensureIndex (SearchQuery := Demo.SearchQuery) Demo.client (Demo.world 0))
  /\ backend (final (ensureIndex (SearchQuery := Demo.SearchQuery) Demo.client
                       (Demo.world 0)))
     = Demo.created.
Proof.
  split; [| vm_compute; reflexivity].
  apply (proj2 (ensureIndex_creates_when_absent (SearchQuery := Demo.SearchQuery)
                  Demo.client (Demo.world 0))).
  - reflexivity.
  - intros b1 Hcreate. vm_compute in Hcreate. injection Hcreate as <-.
    vm_compute. reflexivity.
Defined.





(** C10 at work: there is no index to delete, and [drop] stops there. *)
Lemma drop_delete_unconditional_witness :
  Demo.drop 1 (Demo.world 0)
  = {| trace := [Indices (Delete "films")];
       final := Demo.world 0;
       completion := Thrown Cluster.NotFound |}.
Proof.
  exact (proj2 (drop_delete_unconditional (SearchQuery := Demo.SearchQuery)
                  Demo.client Cluster.elapse 1%nat (Demo.world 0))
           (Cluster.start 0) Cluster.NotFound eq_refl).
Defined.

(** ** Further properties of the class *)

Section Further.
Context {T SearchQuery ElasticsearchQuery Backend : Type}.
Variable client : Client.t T ElasticsearchQuery Backend.
Variable convert : SearchQuery -> string -> string -> Outcome ElasticsearchQuery.
Variable JSON_stringify : BulkResponse.t -> string.
Variable elapse : Z -> Backend -> Backend.

Local Abbreviation waitForConnection :=
  (waitForConnection (SearchQuery := SearchQuery) client elapse).
Local Abbreviation ensureIndex := (ensureIndex (SearchQuery := SearchQuery) client).
Local Abbreviation initialize := (initialize (SearchQuery := SearchQuery) client elapse).
Local Abbreviation index := (index (SearchQuery := SearchQuery) client JSON_stringify).
Local Abbreviation drop := (drop (SearchQuery := SearchQuery) client elapse).
Local Abbreviation issue := (issue (SearchQuery := SearchQuery) client).
Local Abbreviation rejections := (rejections client elapse).
Local Abbreviation Trace := (list (@Effect T SearchQuery ElasticsearchQuery)).
Local Abbreviation failedAttempt := (@failedAttempt T SearchQuery ElasticsearchQuery).
Local Abbreviation count := (@count T SearchQuery ElasticsearchQuery).
Local Abbreviation isGateEffect := (@isGateEffect T SearchQuery ElasticsearchQuery).
Local Abbreviation addresses := (@addresses T SearchQuery ElasticsearchQuery).

(** *** The connection loop *)

(** The loop probes, logs and sleeps, and does nothing else. *)
Lemma waitForConnection_effects (fuel : nat) :
  forall w : World Backend,
    forallb isGateEffect (trace (waitForConnection fuel w)) = true.
Proof.
  induction fuel as [| fuel IH]; intros w; [reflexivity |].
  rewrite waitForConnection_round.
  destruct (Client.ping client 250 (backend w)) as [b [[] | reason]];
    [reflexivity |].
  rewrite prefixed_run; cbn [trace]. rewrite forallb_app, IH. reflexivity.
Qed.

(** X1. Whatever the probes answer, the connection loop never throws: it
    returns or is still waiting; and all it does is probe with a timeout
    of 250 ms, log and sleep for 2000 ms. *)
Theorem waitForConnection_never_throws (fuel : nat) (w : World Backend) :
  (forall e, completion (waitForConnection fuel w) <> Thrown e)
  /\ (completion (waitForConnection fuel w) = Returned tt
      \/ completion (waitForConnection fuel w) = Pending)
  /\ forallb isGateEffect (trace (waitForConnection fuel w)) = true.
Proof.
  split; [| split; [| apply waitForConnection_effects]].
  - revert w. induction fuel as [| fuel IH]; intros w e.
    + intros H; discriminate H.
    + rewrite waitForConnection_round.
      destruct (Client.ping client 250 (backend w)) as [b [[] | reason]].
      * intros H; discriminate H.
      * rewrite prefixed_run; cbn [completion]. apply IH.
  - revert w. induction fuel as [| fuel IH]; intros w.
    + right; reflexivity.
    + rewrite waitForConnection_round.
      destruct (Client.ping client 250 (backend w)) as [b [[] | reason]].
      * left; reflexivity.
      * rewrite prefixed_run; cbn [completion]. apply IH.
Qed.

(** X2. In every run of the connection loop each round probes once and
    sleeps once: there are as many sleeps as pings, at most as many as
    rounds were granted, at least one when the loop returns, and all the
    rounds granted when it is still waiting. *)
Theorem waitForConnection_rounds (fuel : nat) (w : World Backend) :
  let t := trace (waitForConnection fuel w) in
  count isSleep t = count isPing t
  /\ (count isPing t <= fuel)%nat
  /\ (completion (waitForConnection fuel w) = Returned tt -> (1 <= count isPing t)%nat)
  /\ (completion (waitForConnection fuel w) = Pending -> count isPing t = fuel).
Proof.
  cbv zeta. revert w. induction fuel as [| fuel IH]; intros w.
  - cbn. split; [reflexivity |]. split; [lia |].
    split; [intros H; discriminate H | reflexivity].
  - rewrite waitForConnection_round.
    destruct (Client.ping client 250 (backend w)) as [b [[] | reason]].
    + cbn. split; [reflexivity |]. split; [lia |].
      split; [lia | intros H; discriminate H].
    + rewrite prefixed_run; cbn [completion trace].
      destruct (IH {| this := this w; backend := elapse 2000 b |})
        as (Hsame & Hbound & Hreturned & Hpending).
      rewrite !count_app.
      change (count isSleep failedAttempt) with 1%nat.
      change (count isPing failedAttempt) with 1%nat.
      split; [lia |]. split; [lia |].
      split; [lia | intros H; specialize (Hpending H); lia].
Qed.

(** While the probe is rejected the loop goes on probing. *)
Lemma waitForConnection_rejections (n : nat) :
  forall (w : World Backend) (b' : Backend),
    rejections n (backend w) b' ->
    waitForConnection n w
    = {| trace := concat (repeat failedAttempt n);
         final := {| this := this w; backend := b' |};
         completion := Pending |}.
Proof.
  induction n as [| n IH]; intros [e b] b' H; inversion H; subst.
  - reflexivity.
  - rewrite waitForConnection_round. cbn [backend this] in *.
    rewrite H1.
    rewrite (IH {| this := e; backend := elapse 2000 b1 |} b') by assumption.
    reflexivity.
Qed.

(** X3. As long as the probe is rejected, [initialize] does nothing but
    probe, log and sleep: after [n] rejections in a row it is still
    waiting, has issued [n] pings and no other call to the backend, and
    has not looked at any index. *)
Theorem initialize_waits_for_connection (n : nat) (w : World Backend) (b' : Backend) :
  rejections n (backend w) b' ->
  initialize n w
  = {| trace := concat (repeat failedAttempt n);
       final := {| this := this w; backend := b' |};
       completion := Pending |}
  /\ count isBackendCall (trace (initialize n w)) = n
  /\ count isPing (trace (initialize n w)) = n.
Proof.
  intros H.
  assert (Hrun : initialize n w
                 = {| trace := concat (repeat failedAttempt n);
                      final := {| this := this w; backend := b' |};
                      completion := Pending |}).
  { unfold initialize. rewrite bind_run.
    rewrite (waitForConnection_rejections n w b' H). reflexivity. }
  rewrite Hrun; cbn [trace]. split; [reflexivity |].
  rewrite !count_failedAttempts.
  change (count isBackendCall failedAttempt) with 1%nat.
  change (count isPing failedAttempt) with 1%nat.
  lia.
Qed.

(** *** initialize and drop *)

(** X4. When the existence check or the create call of [ensureIndex] is
    rejected, [initialize] throws that rejection and stops there: no
    configuration call is issued, the only index call there can be is the
    create call. *)
Theorem initialize_stops_when_ensureIndex_fails
    (fuel : nat) (w w1 : World Backend) (t0 : Trace) (e : ErrorObject) :
  bind (waitForConnection fuel) (fun _ => ensureIndex) w
  = {| trace := t0; final := w1; completion := Thrown e |} ->
  initialize fuel w = {| trace := t0; final := w1; completion := Thrown e |}
  /\ (forall call,
         In (Indices call) (trace (initialize fuel w)) ->
         call = Create (indexName (this w))).
Proof.
  intros Hprefix.
  assert (Hrun : initialize fuel w
                 = {| trace := t0; final := w1; completion := Thrown e |}).
  { rewrite initialize_run, bind_run, Hprefix. reflexivity. }
  split; [exact Hrun |].
  intros call. rewrite Hrun; cbn [trace].
  change t0 with (trace {| trace := t0; final := w1; completion := @Thrown unit e |}).
  rewrite <- Hprefix, bind_run.
  pose proof (waitForConnection_no_indices_call (SearchQuery := SearchQuery)
                client elapse fuel w call) as Hgate.
  pose proof (keepsThis_waitForConnection (SearchQuery := SearchQuery)
                client elapse fuel w) as Hthis.
  destruct (waitForConnection fuel w) as [t w0 [[] | e0 |]]; cbn [trace final completion] in *;
    try (intros H; exfalso; exact (Hgate H)).
  rewrite prefixed_run; cbn [trace]. rewrite in_app_iff.
  intros [H | H]; [exfalso; exact (Hgate H) |].
  rewrite <- Hthis.
  exact (ensureIndex_indices_call (SearchQuery := SearchQuery) client w0 call H).
Qed.

(** An effect that names the index [name] where it names one, and deletes
    nothing. *)
Local Abbreviation harmless name :=
  (fun e : @Effect T SearchQuery ElasticsearchQuery =>
     addresses name e = true /\ isDelete e = false).

Lemma waitForConnection_harmless (name : string) (fuel : nat) (w : World Backend) :
  Forall (harmless name) (trace (waitForConnection fuel w)).
Proof.
  apply List.Forall_forall. intros e Hin.
  pose proof (proj1 (forallb_forall _ _) (waitForConnection_effects fuel w) e Hin) as H.
  destruct e; try discriminate H; split; reflexivity.
Qed.

Lemma ensureIndex_harmless (w : World Backend) :
  Forall (harmless (indexName (this w))) (trace (ensureIndex w)).
Proof.
  rewrite ensureIndex_run.
  destruct (Client.indices_exists client _ _) as [b [[|] | reason]]; cbn [trace].
  - repeat constructor; cbn; apply String.eqb_refl.
  - destruct (Client.indices client _ b) as [b1 created]; cbn [trace].
    repeat constructor; cbn; apply String.eqb_refl.
  - repeat constructor; cbn; apply String.eqb_refl.
Qed.

Lemma issue_effects (P : @Effect T SearchQuery ElasticsearchQuery -> Prop)
    (calls : list IndicesCall) :
  Forall (fun call => P (Indices call)) calls ->
  forall w : World Backend, Forall P (trace (issue calls w)).
Proof.
  induction 1 as [| call calls Hcall _ IH]; intros w; [constructor |].
  simpl. rewrite bind_run. unfold client_indices, await.
  destruct (Client.indices client call (backend w)) as [b [[] | reason]];
    cbn [trace final completion].
  - rewrite prefixed_run; cbn [trace app]. constructor; [exact Hcall | apply IH].
  - constructor; [exact Hcall | constructor].
Qed.

Lemma configurationCalls_harmless (e : ElasticsearchSearchEngine) :
  Forall (fun call => harmless (indexName e) (Indices call)) (configurationCalls e).
Proof.
  unfold configurationCalls.
  destruct (indexSettings e), (mapping e); cbn;
    repeat constructor; cbn; apply String.eqb_refl.
Qed.

Lemma initialize_harmless (fuel : nat) (w : World Backend) :
  Forall (harmless (indexName (this w))) (trace (initialize fuel w)).
Proof.
  rewrite initialize_run, !bind_run.
  pose proof (waitForConnection_harmless (indexName (this w)) fuel w) as Hgate.
  pose proof (keepsThis_waitForConnection (SearchQuery := SearchQuery)
                client elapse fuel w) as Hthis0.
  destruct (waitForConnection fuel w) as [t0 w0 [[] | e |]];
    cbn [trace final completion] in *; try exact Hgate.
  pose proof (ensureIndex_harmless w0) as Hensure.
  pose proof (keepsThis_ensureIndex (SearchQuery := SearchQuery) client w0) as Hthis1.
  rewrite Hthis0 in Hensure.
  destruct (ensureIndex w0) as [t1 w1 [[] | e |]];
    cbn [prefixed trace final completion] in *;
    rewrite ?prefixed_run; cbn [trace];
    rewrite ?List.Forall_app; repeat split; try assumption.
  apply issue_effects. rewrite Hthis1, Hthis0. apply configurationCalls_harmless.
Qed.

Lemma count_none (p : @Effect T SearchQuery ElasticsearchQuery -> bool) (t : Trace) :
  Forall (fun e => p e = false) t -> count p t = 0%nat.
Proof.
  induction 1 as [| e t He _ IH]; [reflexivity |].
  unfold count in *. cbn. rewrite He. exact IH.
Qed.

(** X5. [initialize] manages one index and nothing else: every existence
    check and every index call it issues names the configured index, it
    never issues a delete call, and it never writes, queries or converts
    anything. *)
Theorem initialize_manages_configured_index (fuel : nat) (w : World Backend) :
  forallb (addresses (indexName (this w))) (trace (initialize fuel w)) = true
  /\ count isDelete (trace (initialize fuel w)) = 0%nat.
Proof.
  pose proof (initialize_harmless fuel w) as H. split.
  - apply forallb_forall. intros e Hin.
    exact (proj1 (proj1 (List.Forall_forall _ _) H e Hin)).
  - apply count_none. eapply List.Forall_impl; [| exact H].
    intros e [_ He]; exact He.
Qed.

(** X6. [drop] deletes once: in every run there is exactly one delete
    call, it names the configured index, and so does every other
    existence check and index call of the run. *)
Theorem drop_deletes_once (fuel : nat) (w : World Backend) :
  count isDelete (trace (drop fuel w)) = 1%nat
  /\ forallb (addresses (indexName (this w))) (trace (drop fuel w)) = true.
Proof.
  rewrite drop_run.
  destruct (Client.indices client _ _) as [b [[] | reason]].
  - rewrite prefixed_run; cbn [trace].
    pose proof (initialize_harmless fuel {| this := this w; backend := b |}) as H.
    cbn [this] in H. split.
    + rewrite count_app. change (count isDelete [Indices (Delete (indexName (this w)))])
        with 1%nat.
      rewrite (count_none isDelete); [reflexivity |].
      eapply List.Forall_impl; [| exact H]. intros e [_ He]; exact He.
    + rewrite forallb_app. cbn. rewrite String.eqb_refl. cbn.
      apply forallb_forall. intros e Hin.
      exact (proj1 (proj1 (List.Forall_forall _ _) H e Hin)).
  - cbn. rewrite String.eqb_refl. split; reflexivity.
Qed.

(** *** index *)

Lemma bulkBody_injective (items1 items2 : list (SearchEngineItem.t T)) :
  bulkBody items1 = bulkBody items2 -> items1 = items2.
Proof.
  revert items2.
  induction items1 as [| [id1 doc1] items1 IH]; intros [| [id2 doc2] items2] H;
    cbn in H; try discriminate H; [reflexivity |].
  injection H as -> -> H. f_equal. apply IH. exact H.
Qed.

(** X7. The bulk request keeps the batch as it is: two batches for which
    [index] sends the same request are the same list of items, with the
    same ids and documents in the same order (nothing is dropped, merged
    or reordered, also when ids repeat), and the body has two lines for
    each item. *)
Theorem index_request_determines_items
    (items1 items2 : list (SearchEngineItem.t T)) (w : World Backend) :
  trace (index items1 w) = trace (index items2 w) ->
  items1 = items2
  /\ length (bulkBody items1) = (2 * length items1)%nat.
Proof.
  rewrite !index_run.
  destruct (Client.bulk client _ _ (bulkBody items1) _) as [b1 s1].
  destruct (Client.bulk client _ _ (bulkBody items2) _) as [b2 s2].
  cbn [trace]. intros H. injection H as H. split.
  - apply bulkBody_injective. exact H.
  - clear. induction items1 as [| item items1 IH]; [reflexivity |].
    cbn [bulkBody flat_map app length] in *. unfold bulkBody in IH. lia.
Qed.

(** *** search *)

(** X8. When the converter throws, [search] throws the same error after
    the conversion alone: the query is not logged, no call reaches the
    backend, and the backend is left as it was. *)
Theorem search_stops_when_converter_throws
    (query : SearchQuery) (w : World Backend) (reason : ErrorObject) :
  convert query (indexName (this w)) (typeName (this w)) = Rejected reason ->
  completion (search client convert query w) = Thrown reason
  /\ trace (search client convert query w)
     = [Convert query (indexName (this w)) (typeName (this w))]
  /\ count isBackendCall (trace (search client convert query w)) = 0%nat
  /\ final (search client convert query w) = w.
Proof.
  intros Hconvert. rewrite (search_unconverted client convert query w reason Hconvert).
  repeat split; reflexivity.
Qed.

End Further.

(** X2 at work: two rounds against the cluster that needs 4000 ms are
    two pings and two sleeps, and the loop is still waiting. *)
Lemma waitForConnection_rounds_witness :
  completion (Demo.waitForConnection 2 (Demo.world 4000)) = Pending
  /\ count isPing (trace (Demo.waitForConnection 2 (Demo.world 4000))) = 2%nat
  /\ count isSleep (trace (Demo.waitForConnection 2 (Demo.world 4000))) = 2%nat.
Proof.
  assert (Hpending : completion (Demo.waitForConnection 2 (Demo.world 4000)) = Pending)
    by (vm_compute; reflexivity).
  split; [exact Hpending |].
  destruct (waitForConnection_rounds (SearchQuery := Demo.SearchQuery)
              Demo.client Cluster.elapse 2 (Demo.world 4000))
    as (Hsame & _ & _ & Hall).
  specialize (Hall Hpending). unfold Demo.waitForConnection.
  split; [exact Hall | rewrite Hsame; exact Hall].
Defined.

(** X3 at work: a cluster that needs 4000 ms rejects two probes, and
    [initialize] with two rounds is still waiting. *)
Lemma initialize_waits_for_connection_witness :
  rejections Demo.client Cluster.elapse 2 (Cluster.start 4000) (Cluster.start 0)
  /\ completion (Demo.initialize 2 (Demo.world 4000)) = Pending
  /\ count isBackendCall (trace (Demo.initialize 2 (Demo.world 4000))) = 2%nat.
Proof.
  assert (Hrejections :
            rejections Demo.client Cluster.elapse 2
              (Cluster.start 4000) (Cluster.start 0)).
  { eapply rejections_more; [reflexivity |].
    eapply rejections_more; [reflexivity |].
    apply rejections_none. }
  split; [exact Hrejections |].
  destruct (initialize_waits_for_connection (SearchQuery := Demo.SearchQuery)
              Demo.client Cluster.elapse 2 (Demo.world 4000) (Cluster.start 0)
              Hrejections)
    as (Hrun & Hcalls & _).
  split; [| exact Hcalls].
  unfold Demo.initialize. rewrite Hrun. reflexivity.
Defined.

(** X4 at work: the cluster answers the probe and loses the existence
    check; [initialize] stops there. *)
Lemma initialize_stops_when_ensureIndex_fails_witness :
  Demo.initialize 1 Demo.flaky
  = {| trace :=
         [Ping 250; ConsoleLog (LogString "connected to elasticsearch"); Sleep 2000;
          IndicesExists "films"];
       final := Demo.world 0;
       completion := Thrown Cluster.NoConnections |}.
Proof.
  exact (proj1 (initialize_stops_when_ensureIndex_fails (SearchQuery := Demo.SearchQuery)
                  Demo.client Cluster.elapse 1 Demo.flaky (Demo.world 0)
                  [Ping 250; ConsoleLog (LogString "connected to elasticsearch");
                   Sleep 2000; IndicesExists "films"]
                  Cluster.NoConnections eq_refl)).
Defined.

(** X7 at work: the request for the batch of three films. *)
Lemma index_request_determines_items_witness :
  length (bulkBody Demo.batch) = 6%nat.
Proof.
  exact (proj2 (index_request_determines_items (SearchQuery := Demo.SearchQuery)
                  Demo.client JSON.stringify Demo.batch Demo.batch Demo.ready eq_refl)).
Defined.

(** X8 at work: page 100 is beyond what the narrow converter knows. *)
Lemma search_stops_when_converter_throws_witness :
  search Demo.client Demo.narrow_convert 100%nat Demo.ready
  = {| trace := [Convert 100%nat "films" "film"];
       final := Demo.ready;
       completion := Thrown {| name := "RangeError"; message := "page out of range" |} |}.
Proof.
  destruct (search_stops_when_converter_throws Demo.client Demo.narrow_convert
              100%nat Demo.ready
              {| name := "RangeError"; message := "page out of range" |} eq_refl)
    as (Hthrown & Htrace & _ & Hfinal).
  destruct (search Demo.client Demo.narrow_convert 100%nat Demo.ready) as [t w c].
  cbn [trace final completion] in *. subst. reflexivity.
Defined.

(** ** cancelableTimeout *)

(** Once the flag is set and the timer is gone, nothing that comes due
    calls [resolve] again or brings the timer back. *)
Lemma resolved_stays (resolveOnCancel : bool) (events : list Timing.Event) :
  forall s : Timing.State,
    Timing.resolved s = true ->
    Timing.timer s = None ->
    Timing.resolutions (fold_left (Timing.step resolveOnCancel) events s)
    = Timing.resolutions s
    /\ Timing.timer (fold_left (Timing.step resolveOnCancel) events s) = None.
Proof.
  induction events as [| e events IH]; intros s Hresolved Htimer; [split; auto |].
  cbn [fold_left].
  assert (Hstep : Timing.resolved (Timing.step resolveOnCancel s e) = true
                  /\ Timing.timer (Timing.step resolveOnCancel s e) = None
                  /\ Timing.resolutions (Timing.step resolveOnCancel s e)
                     = Timing.resolutions s).
  { destruct e; cbn [Timing.step]; rewrite ?Htimer; unfold Timing.onCancel;
      rewrite ?Hresolved; destruct (Timing.awaiting s); cbn; auto. }
  destruct Hstep as (Hresolved' & Htimer' & <-). apply IH; assumption.
Qed.

(** X10. When the timer fires before the cancel promise settles, the
    returned promise resolves [false], by the one call of [resolve] there
    will ever be, whatever comes due afterwards. *)
Theorem cancelableTimeout_timer_first
    (millisecondsOrResolveOnCancel : option Timing.Argument)
    (resolveOnCancel : option bool) (later : list Timing.Event) :
  let s := Timing.cancelableTimeout millisecondsOrResolveOnCancel resolveOnCancel
             (Timing.TimerFires :: later) in
  Timing.settled s = Some false /\ Timing.resolutions s = [false].
Proof.
  cbv zeta. unfold Timing.cancelableTimeout, Timing.settled. cbn [fold_left].
  destruct (resolved_stays
              (Timing.resolveOnCancel millisecondsOrResolveOnCancel resolveOnCancel)
              later
              (Timing.step
                 (Timing.resolveOnCancel millisecondsOrResolveOnCancel resolveOnCancel)
                 (Timing.start millisecondsOrResolveOnCancel) Timing.TimerFires)
              eq_refl eq_refl) as [-> _].
  split; reflexivity.
Qed.

Lemma cancel_first (millisecondsOrResolveOnCancel : option Timing.Argument)
    (resolveOnCancel : option bool) (later : list Timing.Event) :
  let s := Timing.cancelableTimeout millisecondsOrResolveOnCancel resolveOnCancel
             (Timing.CancelResolves :: later) in
  Timing.resolutions s
  = (if Timing.resolveOnCancel millisecondsOrResolveOnCancel resolveOnCancel
     then [true] else [])
  /\ Timing.timer s = None.
Proof.
  cbv zeta. unfold Timing.cancelableTimeout. cbn [fold_left].
  destruct (resolved_stays
              (Timing.resolveOnCancel millisecondsOrResolveOnCancel resolveOnCancel)
              later
              (Timing.step
                 (Timing.resolveOnCancel millisecondsOrResolveOnCancel resolveOnCancel)
                 (Timing.start millisecondsOrResolveOnCancel) Timing.CancelResolves)
              eq_refl eq_refl) as [-> ->].
  split; reflexivity.
Qed.

(** X11. When the cancel promise resolves before the timer fires, the
    timer is cleared for good and the returned promise resolves [true] if
    [resolveOnCancel] holds; if it does not, [resolve] is never called and
    the returned promise never settles, whatever comes due afterwards. *)
Theorem cancelableTimeout_cancel_first
    (millisecondsOrResolveOnCancel : option Timing.Argument)
    (resolveOnCancel : option bool) (later : list Timing.Event) :
  let s := Timing.cancelableTimeout millisecondsOrResolveOnCancel resolveOnCancel
             (Timing.CancelResolves :: later) in
  Timing.settled s
  = (if Timing.resolveOnCancel millisecondsOrResolveOnCancel resolveOnCancel
     then Some true else None)
  /\ Timing.resolutions s
     = (if Timing.resolveOnCancel millisecondsOrResolveOnCancel resolveOnCancel
        then [true] else [])
  /\ Timing.timer s = None.
Proof.
  cbv zeta.
  destruct (cancel_first millisecondsOrResolveOnCancel resolveOnCancel later)
    as [Hresolutions Htimer].
  unfold Timing.settled. rewrite Hresolutions.
  destruct (Timing.resolveOnCancel _ _); repeat split; assumption.
Qed.

(** As long as the flag is clear [resolve] has not been called; once it is
    set the timer is gone and [resolve] has been called at most once. *)
Lemma flag_guards_resolve (resolveOnCancel : bool) (events : list Timing.Event) :
  forall s : Timing.State,
    (Timing.resolved s = false /\ Timing.resolutions s = []
     \/ Timing.resolved s = true /\ Timing.timer s = None
        /\ (length (Timing.resolutions s) <= 1)%nat) ->
    (length (Timing.resolutions (fold_left (Timing.step resolveOnCancel) events s))
     <= 1)%nat.
Proof.
  induction events as [| e events IH]; intros s Hs.
  - cbn [fold_left]. destruct Hs as [[_ ->] | (_ & _ & H)]; [cbn; lia | exact H].
  - cbn [fold_left]. apply IH.
    destruct Hs as [[Hclear Hnone] | (Hset & Htimer & Hone)].
    + destruct e; cbn [Timing.step]; unfold Timing.onTimer, Timing.onCancel;
        rewrite ?Hclear, ?Hnone;
        destruct (Timing.timer s), (Timing.awaiting s), resolveOnCancel; cbn;
        auto 6.
    + right.
      destruct e; cbn [Timing.step]; unfold Timing.onCancel;
        rewrite ?Htimer, ?Hset; destruct (Timing.awaiting s); cbn; auto.
Qed.

(** X12. Whatever comes due and in whatever order, [resolve] is called at
    most once: the flag [resolved] keeps the timer callback and the
    continuation of the [await] from both settling the promise. *)
Theorem cancelableTimeout_resolves_at_most_once
    (millisecondsOrResolveOnCancel : option Timing.Argument)
    (resolveOnCancel : option bool) (events : list Timing.Event) :
  (length
     (Timing.resolutions
        (Timing.cancelableTimeout millisecondsOrResolveOnCancel resolveOnCancel events))
   <= 1)%nat.
Proof.
  unfold Timing.cancelableTimeout. apply flag_guards_resolve.
  left. split; reflexivity.
Qed.

(** Nothing comes due for a call whose timer is gone and whose executor
    is no longer waiting. *)
Lemma idle_stays (resolveOnCancel : bool) (events : list Timing.Event) :
  forall s : Timing.State,
    Timing.timer s = None ->
    Timing.awaiting s = false ->
    fold_left (Timing.step resolveOnCancel) events s = s.
Proof.
  induction events as [| e events IH]; intros s Htimer Hidle; [reflexivity |].
  cbn [fold_left].
  assert (Hstep : Timing.step resolveOnCancel s e = s)
    by (destruct e; cbn [Timing.step]; rewrite ?Htimer, ?Hidle; reflexivity).
  rewrite Hstep. apply IH; assumption.
Qed.

(** X13. When the cancel promise is rejected before the timer fires, the
    rejection is thrown at the [await] and escapes the executor unhandled;
    the rest of the executor never runs: the timer is not cleared and
    [resolve(true)] is never called, also when [resolveOnCancel] holds.
    The returned promise is unsettled and the timer still armed, with its
    delay, for as long as the timer has not fired; if the timer does fire,
    the promise resolves [false]. *)
Theorem cancelableTimeout_cancel_rejected
    (millisecondsOrResolveOnCancel : option Timing.Argument)
    (resolveOnCancel : option bool) (later : list Timing.Event) :
  let s := Timing.cancelableTimeout millisecondsOrResolveOnCancel resolveOnCancel
             (Timing.CancelRejects :: later) in
  Timing.unhandled s = true
  /\ Timing.awaiting s = false
  /\ Timing.settled s
     = (if existsb Timing.isTimerFires later then Some false else None)
  /\ Timing.resolutions s
     = (if existsb Timing.isTimerFires later then [false] else [])
  /\ Timing.timer s
     = (if existsb Timing.isTimerFires later then None
        else Some (Timing.milliseconds millisecondsOrResolveOnCancel)).
Proof.
  cbv zeta. unfold Timing.cancelableTimeout, Timing.settled. cbn [fold_left].
  set (roc := Timing.resolveOnCancel millisecondsOrResolveOnCancel resolveOnCancel).
  set (delay := Timing.milliseconds millisecondsOrResolveOnCancel).
  set (s := Timing.step roc (Timing.start millisecondsOrResolveOnCancel)
              Timing.CancelRejects).
  assert (Hs : Timing.resolved s = false /\ Timing.awaiting s = false
               /\ Timing.resolutions s = []
               /\ Timing.timer s = Some delay
               /\ Timing.unhandled s = true)
    by (repeat split; reflexivity).
  clearbody s. revert s Hs.
  induction later as [| e later IH];
    intros s (Hclear & Hidle & Hnone & Htimer & Hescaped).
  - cbn [fold_left existsb]. rewrite Hnone. repeat split; assumption.
  - cbn [fold_left existsb]. destruct e; cbn [Timing.isTimerFires orb Timing.step].
    + rewrite Htimer. unfold Timing.onTimer. rewrite Hclear. cbn [negb].
      rewrite idle_stays; [| reflexivity | exact Hidle].
      cbn. rewrite Hnone. repeat split; assumption.
    + rewrite Hidle. apply IH. repeat split; assumption.
    + rewrite Hidle. apply IH. repeat split; assumption.
Qed.

(** X14. A boolean given as second argument is the [resolveOnCancel] of
    the call, whatever the third argument says, and the timer is then
    armed with a delay of 0; a number given as second argument is the
    delay, and [resolveOnCancel] is then the third argument, [false] when
    left out; with the second argument left out the delay is 0 and
    [resolveOnCancel] is again the third argument, [false] when left
    out. *)
Theorem cancelableTimeout_overloads
    (b : bool) (n : Z) (third : option bool) (r : bool)
    (later : list Timing.Event) :
  Timing.timer (Timing.cancelableTimeout (Some (Timing.ABoolean b)) third [])
  = Some 0
  /\ Timing.settled
       (Timing.cancelableTimeout (Some (Timing.ABoolean b)) third
          (Timing.CancelResolves :: later))
     = (if b then Some true else None)
  /\ Timing.timer (Timing.cancelableTimeout (Some (Timing.ANumber n)) third [])
     = Some n
  /\ Timing.settled
       (Timing.cancelableTimeout (Some (Timing.ANumber n)) None
          (Timing.CancelResolves :: later))
     = None
  /\ Timing.timer (Timing.cancelableTimeout None None []) = Some 0
  /\ Timing.settled
       (Timing.cancelableTimeout (Some (Timing.ANumber n)) (Some r)
          (Timing.CancelResolves :: later))
     = (if r then Some true else None)
  /\ Timing.timer (Timing.cancelableTimeout None third []) = Some 0
  /\ Timing.settled
       (Timing.cancelableTimeout None (Some r) (Timing.CancelResolves :: later))
     = (if r then Some true else None)
  /\ Timing.settled
       (Timing.cancelableTimeout None None (Timing.CancelResolves :: later))
     = None.
Proof.
  unfold Timing.settled.
  rewrite (proj1 (cancel_first (Some (Timing.ABoolean b)) third later)).
  rewrite (proj1 (cancel_first (Some (Timing.ANumber n)) None later)).
  rewrite (proj1 (cancel_first (Some (Timing.ANumber n)) (Some r) later)).
  rewrite (proj1 (cancel_first None (Some r) later)).
  rewrite (proj1 (cancel_first None None later)).
  destruct b, r; repeat split; reflexivity.
Qed.
